(** * A shallow embedding of scripts/wand_probe.py

    The probe script provisions WeMod/Wand versions, launches each one
    under Wine and classifies its startup from polled /proc snapshots.
    This development embeds the pure parts (version parsing, the role
    classification of [inspect_state]) and the effectful parts
    ([quick_probe], [main]) as explicit state and trace passing.

    Conventions of the model:
    - Python [str] values are [String.string] over ASCII; [str.lower] and
      [str.strip] are written out for ASCII characters.
    - Timestamps read from [time.time()] and the float settings
      ([--observe-timeout], ...) are integers of milliseconds ([Z]).
    - Each read of the environment (the clock, /proc, the network) is an
      explicit input of the model. *)

From Stdlib Require Import ZArith List Bool Lia String Ascii.
From Stdlib Require Import Numbers.DecimalString.
From Stdlib Require Import Sorting.Permutation.
Import ListNotations.
Open Scope string_scope.

(* ------------------------------------------------------------------ *)
(** ** Strings *)

Module Str.

(** [needle in hay] *)
Fixpoint contains (needle hay : string) : bool :=
  if String.prefix needle hay then true
  else match hay with
       | EmptyString => false
       | String _ rest => contains needle rest
       end.

(** ASCII [c.lower()] *)
Definition lower_char (c : ascii) : ascii :=
  let n := nat_of_ascii c in
  if (65 <=? n)%nat && (n <=? 90)%nat then ascii_of_nat (n + 32) else c.

Fixpoint lower (s : string) : string :=
  match s with
  | EmptyString => EmptyString
  | String c r => String (lower_char c) (lower r)
  end.

(** [c.isspace()] on ASCII: \t \n \v \f \r, \x1c-\x1f and space *)
Definition is_space (c : ascii) : bool :=
  let n := nat_of_ascii c in
  ((9 <=? n)%nat && (n <=? 13)%nat) || ((28 <=? n)%nat && (n <=? 32)%nat).

Fixpoint lstrip (s : string) : string :=
  match s with
  | EmptyString => EmptyString
  | String c r => if is_space c then lstrip r else s
  end.

Fixpoint rev_str (s : string) (acc : string) : string :=
  match s with
  | EmptyString => acc
  | String c r => rev_str r (String c acc)
  end.

(** [s.strip()] *)
Definition strip (s : string) : string :=
  rev_str (lstrip (rev_str (lstrip s) EmptyString)) EmptyString.

(** [c.isdigit()] on ASCII *)
Definition is_digit (c : ascii) : bool :=
  let n := nat_of_ascii c in (48 <=? n)%nat && (n <=? 57)%nat.

(** [s.isdigit()]: non-empty and all digits *)
Fixpoint all_digits (s : string) : bool :=
  match s with
  | EmptyString => true
  | String c r => is_digit c && all_digits r
  end.

Definition isdigit (s : string) : bool :=
  match s with
  | EmptyString => false
  | _ => all_digits s
  end.

(** [s.replace(a, b)] for single characters *)
Fixpoint replace_char (a b : ascii) (s : string) : string :=
  match s with
  | EmptyString => EmptyString
  | String c r =>
      String (if Ascii.eqb c a then b else c) (replace_char a b r)
  end.

(** [s.split(":", 1)] when [":" in s]: the text before and after the
    first colon; [None] when there is no colon. *)
Fixpoint split_colon (s : string) : option (string * string) :=
  match s with
  | EmptyString => None
  | String c r =>
      if Ascii.eqb c ":" then Some (EmptyString, r)
      else match split_colon r with
           | Some (a, b) => Some (String c a, b)
           | None => None
           end
  end.

(** [str(n)] for a Python int *)
Definition of_Z (n : Z) : string := NilEmpty.string_of_int (Z.to_int n).

End Str.

(* ------------------------------------------------------------------ *)
(** ** [parse_version_entry] *)

Inductive result (A : Type) : Type :=
| Ok (a : A)
| Raise (msg : string).
Arguments Ok {A} a.
Arguments Raise {A} msg.

Definition parse_version_entry (entry : string) : result (string * string) :=
  match Str.split_colon entry with
  | None =>
      Raise ("invalid version entry '" ++ entry ++ "', expected kind:version")
  | Some (kind0, version0) =>
      let kind := Str.lower (Str.strip kind0) in
      let version := Str.strip version0 in
      if negb (String.eqb kind "wand" || String.eqb kind "wemod") then
        Raise ("invalid kind '" ++ kind ++ "' in '" ++ entry
               ++ "', expected wand or wemod")
      else if String.eqb version "" then
        Raise ("missing version in '" ++ entry ++ "'")
      else Ok (kind, version)
  end.

(* ------------------------------------------------------------------ *)
(** ** [inspect_state]: the role counts of one /proc scan *)

(** The dict [{"main": .., "renderer": .., "gpu": .., "utility": ..}] *)
Record state := mkState {
  main : Z;
  renderer : Z;
  gpu : Z;
  utility : Z
}.

Definition state0 : state := mkState 0 0 0 0.

(** [str(state)], in the dict's insertion order *)
Definition show_state (s : state) : string :=
  "{'main': " ++ Str.of_Z (main s) ++ ", 'renderer': " ++ Str.of_Z (renderer s)
  ++ ", 'gpu': " ++ Str.of_Z (gpu s) ++ ", 'utility': " ++ Str.of_Z (utility s)
  ++ "}".

(** One entry of [Path("/proc").iterdir()]: whether it is a directory,
    its name, and the bytes of its [cmdline] file, [None] when
    [read_bytes()] raises. *)
Record proc_entry := mkEntry {
  pe_is_dir : bool;
  pe_name : string;
  pe_cmdline : option string
}.

(** [raw.replace(b"\x00", b" ").decode("utf-8", "ignore").lower()];
    the bytes are taken as ASCII text. *)
Definition cmdline_text (raw : string) : string :=
  Str.lower (Str.replace_char (ascii_of_nat 0) " " raw).

Definition inspect_entry (st : state) (e : proc_entry) : state :=
  if negb (pe_is_dir e) || negb (Str.isdigit (pe_name e)) then st
  else match pe_cmdline e with
  | None => st
  | Some raw =>
      if String.eqb raw "" then st
      else
        let text := cmdline_text raw in
        if negb (Str.contains "wand.exe" text)
           && negb (Str.contains "wemod.exe" text) then st
        else if Str.contains "--type=renderer" text then
          mkState (main st) (renderer st + 1) (gpu st) (utility st)
        else if Str.contains "--type=gpu-process" text then
          mkState (main st) (renderer st) (gpu st + 1) (utility st)
        else if Str.contains "--type=utility" text then
          mkState (main st) (renderer st) (gpu st) (utility st + 1)
        else
          mkState (main st + 1) (renderer st) (gpu st) (utility st)
  end.

Definition inspect_state (proc : list proc_entry) : state :=
  fold_left inspect_entry proc state0.

Example parse_ex1 : parse_version_entry " WAND :1.0" = Ok ("wand", "1.0").
Proof. reflexivity. Qed.
Example parse_ex2 : parse_version_entry "wand: 1:2 " = Ok ("wand", "1:2").
Proof. reflexivity. Qed.
Example show_ex : show_state (mkState 1 0 12 3)
  = "{'main': 1, 'renderer': 0, 'gpu': 12, 'utility': 3}".
Proof. reflexivity. Qed.
Example inspect_ex : inspect_state
  [mkEntry true "12" (Some "C:\WeMod.exe --type=Renderer");
   mkEntry true "13" None;
   mkEntry true "14" (Some "wine WAND.EXE");
   mkEntry true "self" (Some "wand.exe")]
  = mkState 1 1 0 0.
Proof. reflexivity. Qed.

(* ------------------------------------------------------------------ *)
(** ** The observation loop of [quick_probe] *)

Open Scope Z_scope.

(** The three float settings, in milliseconds *)
Record probe_cfg := mkCfg {
  observe_timeout_sec : Z;
  renderer_stable_sec : Z;
  black_pattern_sec : Z
}.

(** What one iteration of the [while] loop reads from its environment:
    the clock in the loop condition (line 190), the snapshot (line 191),
    and the clock at lines 195, 206, 210 and 213 (a read that the code
    does not perform in that iteration is ignored).  For the iteration
    whose condition fails, [c_state] is the [inspect_state()] of line 218. *)
Record cycle := mkCycle {
  c_now : Z;
  c_state : state;
  c_t_rarm : Z;
  c_t_barm : Z;
  c_t_rchk : Z;
  c_t_bchk : Z
}.

(** Python truthiness of [renderer_since] / [black_since]: a float or None *)
Definition truthy (t : option Z) : bool :=
  match t with
  | Some x => negb (x =? 0)
  | None => false
  end.

Definition black_cond (st : state) : bool :=
  (0 <? main st) && (0 <? gpu st) && (0 <? utility st) && (renderer st =? 0).

(** Lines 193-197 *)
Definition arm_renderer (st : state) (since : option Z) (t : Z) : option Z :=
  if 0 <? renderer st then
    match since with None => Some t | Some _ => since end
  else None.

(** Lines 199-208 *)
Definition arm_black (st : state) (since : option Z) (t : Z) : option Z :=
  if black_cond st then
    match since with None => Some t | Some _ => since end
  else None.

Definition started_detail (st : state) : string :=
  "renderer stable (state=" ++ show_state st ++ ")".

Definition black_detail (st : state) : string :=
  "main+gpu+utility without renderer (state=" ++ show_state st ++ ")".

(** Lines 210-214 *)
Definition decide_verdict (cfg : probe_cfg) (st : state)
    (renderer_since black_since : option Z) (t_rchk t_bchk : Z)
    : option (string * string) :=
  if truthy renderer_since
     && (match renderer_since with
         | Some r => renderer_stable_sec cfg <=? t_rchk - r
         | None => false end)
  then Some ("STARTED", started_detail st)
  else if truthy black_since
     && (match black_since with
         | Some b => black_pattern_sec cfg <=? t_bchk - b
         | None => false end)
  then Some ("BLACK_PATTERN", black_detail st)
  else None.

(** [f"{x:.0f}"] of a millisecond amount: round half to even *)
Definition fmt_0f (t : Z) : string :=
  let q := t / 1000 in
  let r := t mod 1000 in
  let n := if 500 <? r then q + 1
           else if r =? 500 then (if Z.even q then q else q + 1)
           else q in
  if (t <? 0) && (n =? 0) then "-0" else Str.of_Z n.

Definition timeout_detail (cfg : probe_cfg) (st : state) : string :=
  "no stable renderer within " ++ fmt_0f (observe_timeout_sec cfg)
  ++ "s (state=" ++ show_state st ++ ")".

Inductive step_result : Type :=
| Continue (renderer_since black_since : option Z)
| Return (status detail : string).

(** One iteration: the loop condition, then the body *)
Definition cycle_step (cfg : probe_cfg) (start : Z)
    (renderer_since black_since : option Z) (c : cycle) : step_result :=
  if negb (c_now c - start <? observe_timeout_sec cfg) then
    Return "TIMEOUT" (timeout_detail cfg (c_state c))
  else
    let st := c_state c in
    let rs := arm_renderer st renderer_since (c_t_rarm c) in
    let bs := arm_black st black_since (c_t_barm c) in
    match decide_verdict cfg st rs bs (c_t_rchk c) (c_t_bchk c) with
    | Some (status, detail) => Return status detail
    | None => Continue rs bs
    end.

Fixpoint run_cycles (cfg : probe_cfg) (start : Z)
    (renderer_since black_since : option Z) (cs : list cycle) : step_result :=
  match cs with
  | [] => Continue renderer_since black_since
  | c :: cs' =>
      match cycle_step cfg start renderer_since black_since c with
      | Continue rs bs => run_cycles cfg start rs bs cs'
      | r => r
      end
  end.

(** The [try] body of [quick_probe] from line 186 on; [None] when the
    given iterations run out before the loop returns. *)
Definition observe_loop (cfg : probe_cfg) (start : Z) (cs : list cycle)
    : option (string * string) :=
  match run_cycles cfg start None None cs with
  | Return status detail => Some (status, detail)
  | Continue _ _ => None
  end.

(* ------------------------------------------------------------------ *)
(** ** [quick_probe] and [main] *)

(** Effects visible outside the process: the [Popen] of Wine, the
    [proc.kill()] of the child, a call of [kill_wemod_processes()], and a
    printed line. *)
Inductive event : Type :=
| Launch
| KillChild
| Teardown
| Print (line : string).

Record probe_env := mkProbeEnv {
  exe_exists : bool;                (* [exe.exists()] *)
  popen : result unit;              (* [subprocess.Popen(...)] *)
  start_time : Z;                   (* [time.time()] at line 185 *)
  cycles : list cycle
}.

(** [quick_probe]: its returned pair or raised exception, and its events *)
Definition quick_probe (cfg : probe_cfg) (env : probe_env)
    : option (result (string * string) * list event) :=
  if negb (exe_exists env) then
    Some (Ok ("ERROR", "WeMod.exe missing after install"), [])
  else
    match popen env with
    | Raise msg => Some (Raise msg, [])
    | Ok _ =>
        match observe_loop cfg (start_time env) (cycles env) with
        | Some r => Some (Ok r, [Launch; KillChild; Teardown])
        | None => None
        end
    end.

(** The environment of one version: [download_if_needed],
    [install_nupkg] and the probe *)
Record version_env := mkVersionEnv {
  download : result unit;
  install : result unit;
  probe : probe_env
}.

Definition csv_line (kind version status summary : string) : string :=
  kind ++ "," ++ version ++ "," ++ status ++ ","
  ++ Str.replace_char "," ";" summary.

(** The [try]/[except] of lines 239-251 *)
Definition run_one (cfg : probe_cfg) (kind version : string)
    (ve : version_env) : option (list event) :=
  match download ve with
  | Raise msg => Some [Print (csv_line kind version "ERROR" msg)]
  | Ok _ =>
      match install ve with
      | Raise msg => Some [Print (csv_line kind version "ERROR" msg)]
      | Ok _ =>
          match quick_probe cfg (probe ve) with
          | None => None
          | Some (Raise msg, evs) =>
              Some (evs ++ [Print (csv_line kind version "ERROR" msg)])%list
          | Some (Ok (status, summary), evs) =>
              Some (evs ++ [Print (csv_line kind version status summary)])%list
          end
      end
  end.

(** Lines 237-251 *)
Fixpoint main_loop (cfg : probe_cfg) (reqs : list (string * string))
    (envs : list version_env) : option (list event) :=
  match reqs, envs with
  | [], _ => Some []
  | (kind, version) :: reqs', ve :: envs' =>
      match run_one cfg kind version ve, main_loop cfg reqs' envs' with
      | Some evs, Some rest => Some (Teardown :: evs ++ rest)%list
      | _, _ => None
      end
  | _ :: _, [] => None
  end.

(** Lines 231-233 *)
Fixpoint parse_all (entries : list string) : result (list (string * string)) :=
  match entries with
  | [] => Ok []
  | e :: es =>
      match parse_version_entry e with
      | Raise msg => Raise msg
      | Ok kv => match parse_all es with
                 | Raise msg => Raise msg
                 | Ok kvs => Ok (kv :: kvs)
                 end
      end
  end.

Definition header : string := "kind,version,status,summary".

(** [main] after [parse_args()]: the entries of [--versions] and one
    environment per entry *)
Definition main_prog (cfg : probe_cfg) (entries : list string)
    (envs : list version_env) : option (result unit * list event) :=
  match parse_all entries with
  | Raise msg => Some (Raise msg, [])
  | Ok reqs =>
      match main_loop cfg reqs envs with
      | Some evs => Some (Ok tt, Print header :: evs ++ [Teardown])%list
      | None => None
      end
  end.

(* ================================================================== *)
(** * Properties *)

(* ------------------------------------------------------------------ *)
(** ** Splitting on the first colon *)

Lemma prefix_colon (c : ascii) (r : string) :
  String.prefix ":" (String c r) = Ascii.eqb c ":".
Proof.
  cbn [String.prefix].
  destruct (Ascii.ascii_dec ":" c) as [<-|n]; [destruct r; reflexivity|].
  symmetry. apply Ascii.eqb_neq. congruence.
Qed.

Lemma split_colon_none (e : string) :
  Str.contains ":" e = false -> Str.split_colon e = None.
Proof.
  induction e as [|c r IH]; [reflexivity|].
  intros H. cbn [Str.contains] in H. rewrite prefix_colon in H.
  cbn [Str.split_colon String.append].
  destruct (Ascii.eqb c ":"); [discriminate|].
  rewrite (IH H). reflexivity.
Qed.

Lemma split_colon_first (k0 rest : string) :
  Str.contains ":" k0 = false ->
  Str.split_colon (k0 ++ ":" ++ rest) = Some (k0, rest).
Proof.
  induction k0 as [|c r IH]; [reflexivity|].
  intros H. cbn [Str.contains] in H. rewrite prefix_colon in H.
  cbn [Str.split_colon String.append].
  destruct (Ascii.eqb c ":"); [discriminate|].
  specialize (IH H). cbn [String.append] in IH. rewrite IH. reflexivity.
Qed.

(** C10, counterexample: the version is whitespace-stripped, so the text
    after the first colon is not returned verbatim. *)
Lemma parse_version_entry_not_verbatim :
  parse_version_entry "wand: 1:2 " <> Ok ("wand", " 1:2 ")
  /\ parse_version_entry "wand: 1:2 " = Ok ("wand", "1:2").
Proof. split; [discriminate | reflexivity]. Qed.

(** C10 (amended): [parse_version_entry] splits on the first colon only.
    With [k0] free of colons, the entry [k0 ++ ":" ++ rest] is accepted
    exactly when the lowered, stripped [k0] is "wand" or "wemod" and the
    stripped [rest] is non-empty; the result is that kind and the
    stripped [rest], whose inner colons are kept.  An entry without a
    colon raises. *)
Theorem parse_version_entry_spec (k0 rest : string) :
  Str.contains ":" k0 = false ->
  let kind := Str.lower (Str.strip k0) in
  let version := Str.strip rest in
  ((kind = "wand" \/ kind = "wemod") -> version <> "" ->
     parse_version_entry (k0 ++ ":" ++ rest) = Ok (kind, version))
  /\ (~ (kind = "wand" \/ kind = "wemod") \/ version = "" ->
     exists msg, parse_version_entry (k0 ++ ":" ++ rest) = Raise msg)
  /\ (forall e, Str.contains ":" e = false ->
        exists msg, parse_version_entry e = Raise msg).
Proof.
  intros Hk kind version.
  unfold parse_version_entry. rewrite (split_colon_first _ _ Hk).
  fold kind version.
  split; [|split].
  - intros Hkind Hv.
    assert (E : (String.eqb kind "wand" || String.eqb kind "wemod")%bool = true).
    { destruct Hkind as [-> | ->]; reflexivity. }
    rewrite E. simpl.
    destruct (String.eqb version "") eqn:Ev;
      [apply String.eqb_eq in Ev; contradiction | reflexivity].
  - intros [Hkind | Hv].
    + destruct (String.eqb kind "wand") eqn:E1.
      { apply String.eqb_eq in E1. exfalso. auto. }
      destruct (String.eqb kind "wemod") eqn:E2.
      { apply String.eqb_eq in E2. exfalso. auto. }
      simpl. eexists. reflexivity.
    + subst version. rewrite Hv.
      destruct (String.eqb kind "wand" || String.eqb kind "wemod")%bool;
        simpl; eexists; reflexivity.
  - intros e He. rewrite (split_colon_none _ He). eexists. reflexivity.
Qed.

Lemma parse_version_entry_spec_witness :
  Str.contains ":" " WAND " = false
  /\ parse_version_entry (" WAND " ++ ":" ++ "1.0:beta")
     = Ok ("wand", "1.0:beta").
Proof.
  split; [reflexivity|].
  apply (parse_version_entry_spec " WAND " "1.0:beta"); [reflexivity | | ].
  - left. reflexivity.
  - discriminate.
Defined.

(* ------------------------------------------------------------------ *)
(** ** Role bucketing of [inspect_state] *)

Inductive role := RMain | RRenderer | RGpu | RUtility.

Definition role_eqb (a b : role) : bool :=
  match a, b with
  | RMain, RMain | RRenderer, RRenderer | RGpu, RGpu
  | RUtility, RUtility => true
  | _, _ => false
  end.

(** The precedence of the spec (4.1): renderer marker, else gpu-process
    marker, else utility marker, else main. *)
Definition role_by_precedence (text : string) : role :=
  if Str.contains "--type=renderer" text then RRenderer
  else if Str.contains "--type=gpu-process" text then RGpu
  else if Str.contains "--type=utility" text then RUtility
  else RMain.

Definition names_target (text : string) : bool :=
  Str.contains "wand.exe" text || Str.contains "wemod.exe" text.

(** The lowered command line of a process entry that can be read *)
Definition readable_text (e : proc_entry) : option string :=
  if pe_is_dir e && Str.isdigit (pe_name e) then
    match pe_cmdline e with
    | Some raw => if String.eqb raw "" then None else Some (cmdline_text raw)
    | None => None
    end
  else None.

Definition bucket (e : proc_entry) : option role :=
  match readable_text e with
  | Some text => if names_target text then Some (role_by_precedence text) else None
  | None => None
  end.

Definition count_role (r : role) (es : list proc_entry) : Z :=
  Z.of_nat (List.length (filter (fun e => match bucket e with
                                     | Some r' => role_eqb r r'
                                     | None => false
                                     end) es)).

Definition bump (st : state) (r : role) : state :=
  match r with
  | RMain => mkState (main st + 1) (renderer st) (gpu st) (utility st)
  | RRenderer => mkState (main st) (renderer st + 1) (gpu st) (utility st)
  | RGpu => mkState (main st) (renderer st) (gpu st + 1) (utility st)
  | RUtility => mkState (main st) (renderer st) (gpu st) (utility st + 1)
  end.

Lemma inspect_entry_bucket (st : state) (e : proc_entry) :
  inspect_entry st e = match bucket e with
                       | Some r => bump st r
                       | None => st
                       end.
Proof.
  unfold inspect_entry, bucket, readable_text, names_target, role_by_precedence.
  destruct (pe_is_dir e), (Str.isdigit (pe_name e)); simpl; try reflexivity.
  destruct (pe_cmdline e) as [raw|]; [|reflexivity].
  destruct (String.eqb raw ""); [reflexivity|].
  destruct (Str.contains "wand.exe" (cmdline_text raw)),
           (Str.contains "wemod.exe" (cmdline_text raw)); simpl;
  try reflexivity;
  destruct (Str.contains "--type=renderer" (cmdline_text raw)); try reflexivity;
  destruct (Str.contains "--type=gpu-process" (cmdline_text raw)); try reflexivity;
  destruct (Str.contains "--type=utility" (cmdline_text raw)); reflexivity.
Qed.

Lemma fold_inspect (es : list proc_entry) (st : state) :
  fold_left inspect_entry es st =
  mkState (main st + count_role RMain es) (renderer st + count_role RRenderer es)
          (gpu st + count_role RGpu es) (utility st + count_role RUtility es).
Proof.
  revert st. induction es as [|e es IH]; intros st.
  - destruct st; unfold count_role; simpl; f_equal; lia.
  - simpl. rewrite IH, inspect_entry_bucket.
    unfold count_role. simpl.
    destruct (bucket e) as [[]|]; simpl; f_equal; lia.
Qed.

Lemma lower_char_idem (c : ascii) :
  Str.lower_char (Str.lower_char c) = Str.lower_char c.
Proof. destruct c as [[] [] [] [] [] [] [] []]; reflexivity. Qed.

Lemma lower_char_nul (c : ascii) :
  Str.lower_char (if Ascii.eqb c (ascii_of_nat 0) then " "%char else c)
  = if Ascii.eqb (Str.lower_char c) (ascii_of_nat 0) then " "%char
    else Str.lower_char c.
Proof. destruct c as [[] [] [] [] [] [] [] []]; reflexivity. Qed.

Lemma cmdline_text_lower (raw : string) :
  cmdline_text (Str.lower raw) = cmdline_text raw.
Proof.
  unfold cmdline_text. induction raw as [|c r IH]; [reflexivity|].
  simpl. rewrite IH, !lower_char_nul, lower_char_idem. reflexivity.
Qed.

(** C8: [inspect_state] counts, for each role, the readable /proc entries
    whose lowered command line names wand.exe or wemod.exe and whose
    role by the marker precedence (renderer, gpu-process, utility, else
    main) is that role; so each such process is in exactly one count.
    An entry whose [cmdline] cannot be read changes nothing, matching
    ignores the case of the command line, and every count is
    non-negative. *)
Theorem inspect_state_buckets (es : list proc_entry) :
  inspect_state es = mkState (count_role RMain es) (count_role RRenderer es)
                             (count_role RGpu es) (count_role RUtility es)
  /\ (forall l1 l2 e, pe_cmdline e = None ->
        inspect_state (l1 ++ e :: l2) = inspect_state (l1 ++ l2))
  /\ (forall raw, cmdline_text (Str.lower raw) = cmdline_text raw)
  /\ 0 <= main (inspect_state es) /\ 0 <= renderer (inspect_state es)
  /\ 0 <= gpu (inspect_state es) /\ 0 <= utility (inspect_state es).
Proof.
  unfold inspect_state. rewrite fold_inspect. simpl.
  split; [reflexivity|]. split; [|split; [exact cmdline_text_lower|]].
  - intros l1 l2 e He. rewrite !fold_left_app. simpl.
    rewrite inspect_entry_bucket.
    unfold bucket, readable_text. rewrite He.
    destruct (pe_is_dir e && Str.isdigit (pe_name e)); reflexivity.
  - unfold count_role. repeat split; lia.
Qed.

(** Each matching process lands in exactly one count. *)
Lemma inspect_state_total (es : list proc_entry) :
  main (inspect_state es) + renderer (inspect_state es)
  + gpu (inspect_state es) + utility (inspect_state es)
  = Z.of_nat (List.length (filter (fun e => match bucket e with
                                       | Some _ => true
                                       | None => false end) es)).
Proof.
  unfold inspect_state. rewrite fold_inspect. simpl. unfold count_role.
  induction es as [|e es IH]; [reflexivity|].
  cbn [filter]. destruct (bucket e) as [[]|];
    cbn [role_eqb List.length] in IH |- *; lia.
Qed.

(* ------------------------------------------------------------------ *)
(** ** The loop: general facts *)

Open Scope list_scope.

Lemma run_cycles_app (cfg : probe_cfg) (start : Z) (l1 l2 : list cycle) :
  forall rs bs,
  run_cycles cfg start rs bs (l1 ++ l2) =
  match run_cycles cfg start rs bs l1 with
  | Continue rs' bs' => run_cycles cfg start rs' bs' l2
  | r => r
  end.
Proof.
  induction l1 as [|c l1 IH]; intros rs bs; [reflexivity|].
  simpl. destruct (cycle_step cfg start rs bs c); [apply IH | reflexivity].
Qed.

(** The clock reads of one iteration, in program order *)
Definition cycle_reads (c : cycle) : list Z :=
  [c_now c; c_t_rarm c; c_t_barm c; c_t_rchk c; c_t_bchk c].

Fixpoint nondecr (b : Z) (l : list Z) : bool :=
  match l with
  | [] => true
  | x :: l' => (b <=? x) && nondecr x l'
  end.

(** [time.time()] is positive (seconds since the epoch) and does not go
    backwards from [start] on. *)
Definition clock_ok (start : Z) (cs : list cycle) : bool :=
  (0 <? start) && nondecr start (flat_map cycle_reads cs).

Definition in_window (cfg : probe_cfg) (start : Z) (c : cycle) : bool :=
  c_now c - start <? observe_timeout_sec cfg.

(** A timer is unarmed or armed at a positive time no later than [b] *)
Definition timer_ok (b : Z) (o : option Z) : Prop :=
  match o with
  | Some t => 0 < t <= b
  | None => True
  end.

Lemma nondecr_app (b : Z) (l1 l2 : list Z) :
  nondecr b (l1 ++ l2) = true -> nondecr b l1 = true.
Proof.
  revert b. induction l1 as [|x l1 IH]; intros b; [reflexivity|].
  simpl. rewrite !andb_true_iff. intros [H1 H2]. auto.
Qed.

Lemma cycle_step_in_window (cfg : probe_cfg) (start : Z) rs bs (c : cycle) :
  in_window cfg start c = true ->
  cycle_step cfg start rs bs c =
  let rs' := arm_renderer (c_state c) rs (c_t_rarm c) in
  let bs' := arm_black (c_state c) bs (c_t_barm c) in
  match decide_verdict cfg (c_state c) rs' bs' (c_t_rchk c) (c_t_bchk c) with
  | Some (status, detail) => Return status detail
  | None => Continue rs' bs'
  end.
Proof. unfold cycle_step, in_window. intros ->. reflexivity. Qed.

(** Along a run with a well-behaved clock, an armed timer holds a
    positive time no later than the last clock read. *)
Lemma timers_bounded (cfg : probe_cfg) (start : Z) (l : list cycle) :
  forall b rs bs rest rs' bs',
  0 < b -> timer_ok b rs -> timer_ok b bs ->
  nondecr b (flat_map cycle_reads l ++ rest) = true ->
  run_cycles cfg start rs bs l = Continue rs' bs' ->
  exists b', 0 < b' /\ timer_ok b' rs' /\ timer_ok b' bs'
             /\ nondecr b' rest = true.
Proof.
  induction l as [|c l IH]; intros b rs bs rest rs' bs' Hb Hr Hbs Hnd Hrun.
  - simpl in Hrun. inversion Hrun; subst. exists b. auto.
  - simpl in Hnd, Hrun. rewrite !andb_true_iff, !Z.leb_le in Hnd.
    destruct Hnd as [H0 [H1 [H2 [H3 [H4 Hnd]]]]].
    unfold cycle_step in Hrun.
    destruct (c_now c - start <? observe_timeout_sec cfg); [|discriminate].
    simpl in Hrun.
    set (rs1 := arm_renderer (c_state c) rs (c_t_rarm c)) in Hrun.
    set (bs1 := arm_black (c_state c) bs (c_t_barm c)) in Hrun.
    assert (Hr1 : timer_ok (c_t_bchk c) rs1).
    { unfold rs1, arm_renderer.
      destruct (0 <? renderer (c_state c)); [|exact I].
      destruct rs as [t|]; simpl in *; lia. }
    assert (Hb1 : timer_ok (c_t_bchk c) bs1).
    { unfold bs1, arm_black.
      destruct (black_cond (c_state c)); [|exact I].
      destruct bs as [t|]; simpl in *; lia. }
    destruct (decide_verdict cfg (c_state c) rs1 bs1 (c_t_rchk c) (c_t_bchk c))
      as [[s d]|]; [discriminate|].
    eapply IH; [| exact Hr1 | exact Hb1 | exact Hnd | exact Hrun]. lia.
Qed.

Lemma renderer_excludes_black (st : state) :
  0 < renderer st -> black_cond st = false.
Proof.
  intros H. unfold black_cond.
  destruct (renderer st =? 0) eqn:E; [apply Z.eqb_eq in E; lia|].
  rewrite !andb_false_r. reflexivity.
Qed.

Lemma black_excludes_renderer (st : state) :
  black_cond st = true -> (0 <? renderer st) = false.
Proof.
  unfold black_cond. rewrite !andb_true_iff, Z.eqb_eq. intros [_ ->].
  reflexivity.
Qed.

Ltac unpack_forallb H :=
  simpl in H; rewrite !andb_true_iff in H.

(** A run of iterations with a renderer, all inside the observation
    window, whose renderer timer holds [a] from its first iteration on,
    returns STARTED once [a] is [renderer_stable_sec] old. *)
Lemma renderer_streak (cfg : probe_cfg) (start : Z) (mid : list cycle) :
  forall rs bs a d,
  0 < a ->
  forallb (fun c => (0 <? renderer (c_state c)) && in_window cfg start c) mid
    = true ->
  match mid with
  | c :: _ => arm_renderer (c_state c) rs (c_t_rarm c) = Some a
  | [] => False
  end ->
  renderer_stable_sec cfg <= c_t_rchk (last mid d) - a ->
  exists mid1 c mid2, mid = mid1 ++ c :: mid2
    /\ (exists rs' bs', run_cycles cfg start rs bs mid1 = Continue rs' bs')
    /\ run_cycles cfg start rs bs mid = Return "STARTED" (started_detail (c_state c)).
Proof.
  induction mid as [|c mid IH]; intros rs bs a d Ha Hall Harm Hthr;
    [contradiction|].
  unpack_forallb Hall. destruct Hall as [[Hrc Hwin] Hall].
  apply Z.ltb_lt in Hrc.
  cbn [run_cycles]. rewrite (cycle_step_in_window _ _ _ _ _ Hwin).
  assert (Eb : arm_black (c_state c) bs (c_t_barm c) = None).
  { unfold arm_black. rewrite (renderer_excludes_black _ Hrc). reflexivity. }
  cbv zeta. rewrite Harm, Eb.
  unfold decide_verdict at 1. cbn [truthy].
  assert (Ea : (a =? 0) = false) by (apply Z.eqb_neq; lia).
  rewrite Ea. cbn [negb andb].
  destruct (renderer_stable_sec cfg <=? c_t_rchk c - a) eqn:Ethr.
  - exists [], c, mid. repeat split. exists rs, bs. reflexivity.
  - cbn [andb].
    destruct mid as [|c' mid'].
    + simpl in Hthr. apply Z.leb_gt in Ethr. lia.
    + destruct (IH (Some a) None a d Ha Hall) as (mid1 & c1 & mid2 & E & Hpre & Hret).
      * unpack_forallb Hall. destruct Hall as [[Hrc' _] _].
        unfold arm_renderer. rewrite Hrc'. reflexivity.
      * exact Hthr.
      * exists (c :: mid1), c1, mid2. split; [rewrite E; reflexivity|].
        split; [|exact Hret].
        destruct Hpre as (rs' & bs' & Hpre). exists rs', bs'.
        cbn [run_cycles]. rewrite (cycle_step_in_window _ _ _ _ _ Hwin).
        cbv zeta. rewrite Harm, Eb.
        unfold decide_verdict at 1. cbn [truthy]. rewrite Ea, Ethr.
        exact Hpre.
Qed.

(** The same for a run of iterations showing the black pattern. *)
Lemma black_streak (cfg : probe_cfg) (start : Z) (mid : list cycle) :
  forall rs bs a d,
  0 < a ->
  forallb (fun c => black_cond (c_state c) && in_window cfg start c) mid = true ->
  match mid with
  | c :: _ => arm_black (c_state c) bs (c_t_barm c) = Some a
  | [] => False
  end ->
  black_pattern_sec cfg <= c_t_bchk (last mid d) - a ->
  exists mid1 c mid2, mid = mid1 ++ c :: mid2
    /\ (exists rs' bs', run_cycles cfg start rs bs mid1 = Continue rs' bs')
    /\ run_cycles cfg start rs bs mid
       = Return "BLACK_PATTERN" (black_detail (c_state c)).
Proof.
  induction mid as [|c mid IH]; intros rs bs a d Ha Hall Harm Hthr;
    [contradiction|].
  unpack_forallb Hall. destruct Hall as [[Hbc Hwin] Hall].
  cbn [run_cycles]. rewrite (cycle_step_in_window _ _ _ _ _ Hwin).
  assert (Er : arm_renderer (c_state c) rs (c_t_rarm c) = None).
  { unfold arm_renderer. rewrite (black_excludes_renderer _ Hbc). reflexivity. }
  cbv zeta. rewrite Harm, Er.
  unfold decide_verdict at 1. cbn [truthy].
  assert (Ea : (a =? 0) = false) by (apply Z.eqb_neq; lia).
  rewrite Ea. cbn [negb andb].
  destruct (black_pattern_sec cfg <=? c_t_bchk c - a) eqn:Ethr.
  - exists [], c, mid. repeat split. exists rs, bs. reflexivity.
  - destruct mid as [|c' mid'].
    + simpl in Hthr. apply Z.leb_gt in Ethr. lia.
    + destruct (IH None (Some a) a d Ha Hall) as (mid1 & c1 & mid2 & E & Hpre & Hret).
      * unpack_forallb Hall. destruct Hall as [[Hbc' _] _].
        unfold arm_black. rewrite Hbc'. reflexivity.
      * exact Hthr.
      * exists (c :: mid1), c1, mid2. split; [rewrite E; reflexivity|].
        split; [|exact Hret].
        destruct Hpre as (rs' & bs' & Hpre). exists rs', bs'.
        cbn [run_cycles]. rewrite (cycle_step_in_window _ _ _ _ _ Hwin).
        cbv zeta. rewrite Harm, Er.
        unfold decide_verdict at 1. cbn [truthy]. rewrite Ea, Ethr.
        exact Hpre.
Qed.

Lemma clock_ok_split (cfg : probe_cfg) (start : Z) (pre : list cycle)
    (c : cycle) (mid : list cycle) rs bs :
  clock_ok start (pre ++ c :: mid) = true ->
  run_cycles cfg start None None pre = Continue rs bs ->
  exists b, 0 < b /\ b <= c_t_rarm c /\ b <= c_t_barm c
            /\ timer_ok b rs /\ timer_ok b bs.
Proof.
  unfold clock_ok. rewrite andb_true_iff, Z.ltb_lt, flat_map_app.
  intros [Hs Hnd] Hrun.
  destruct (timers_bounded cfg start pre start None None _ rs bs Hs I I Hnd Hrun)
    as (b & Hb & Hr & Hbs & Hnd').
  simpl in Hnd'. rewrite !andb_true_iff, !Z.leb_le in Hnd'.
  exists b. repeat split; try assumption; lia.
Qed.

(** C1: with a positive, non-decreasing clock, if no verdict and no
    timeout happened before a run of polls [c_first :: mid'] in which the
    renderer count is > 0 at every poll, all polls inside
    [observe_timeout], and the check of the last poll comes at least
    [renderer_stable_sec] after the arming read of the first, then
    [quick_probe]'s loop returns STARTED, in some poll [c] of that run,
    with the detail "renderer stable (state=...)" carrying the role
    counts [c_state c] of that deciding poll. *)
Theorem renderer_stable_started (cfg : probe_cfg) (start : Z)
    (pre : list cycle) (c_first : cycle) (mid' post : list cycle)
    (rs bs : option Z) :
  clock_ok start (pre ++ c_first :: mid') = true ->
  run_cycles cfg start None None pre = Continue rs bs ->
  forallb (fun c => (0 <? renderer (c_state c)) && in_window cfg start c)
    (c_first :: mid') = true ->
  renderer_stable_sec cfg
    <= c_t_rchk (last (c_first :: mid') c_first) - c_t_rarm c_first ->
  exists mid1 c mid2, c_first :: mid' = mid1 ++ c :: mid2
    /\ 0 < renderer (c_state c)
    /\ (exists rs' bs', run_cycles cfg start None None (pre ++ mid1)
                        = Continue rs' bs')
    /\ observe_loop cfg start (pre ++ (c_first :: mid') ++ post)
       = Some ("STARTED", started_detail (c_state c)).
Proof.
  intros Hclk Hpre Hall Hthr.
  destruct (clock_ok_split cfg start pre c_first mid' rs bs Hclk Hpre)
    as (b & Hb & Hbr & _ & Hr & _).
  assert (Hrc : 0 < renderer (c_state c_first)).
  { unpack_forallb Hall. destruct Hall as [[H _] _]. apply Z.ltb_lt. exact H. }
  set (a := match rs with Some t => t | None => c_t_rarm c_first end).
  assert (Harm : arm_renderer (c_state c_first) rs (c_t_rarm c_first) = Some a).
  { unfold arm_renderer, a. apply Z.ltb_lt in Hrc. rewrite Hrc.
    destruct rs; reflexivity. }
  assert (Ha : 0 < a <= c_t_rarm c_first).
  { unfold a. destruct rs as [t|]; simpl in Hr; lia. }
  destruct (renderer_streak cfg start (c_first :: mid') rs bs a c_first
              ltac:(lia) Hall Harm ltac:(lia))
    as (mid1 & c & mid2 & E & Hmid1 & Hret).
  exists mid1, c, mid2. split; [exact E|]. split.
  - assert (Hin : In c (c_first :: mid')) by (rewrite E; apply in_or_app; right; left; reflexivity).
    rewrite forallb_forall in Hall. specialize (Hall c Hin).
    rewrite andb_true_iff, Z.ltb_lt in Hall. tauto.
  - split.
    + destruct Hmid1 as (rs' & bs' & H). exists rs', bs'.
      rewrite run_cycles_app, Hpre. exact H.
    + unfold observe_loop. rewrite run_cycles_app, Hpre, run_cycles_app, Hret.
      reflexivity.
Qed.

(** C2: with a positive, non-decreasing clock, if no verdict and no
    timeout happened before a run of polls [c_first :: mid'] in which the
    black-pattern condition holds at every poll (so the renderer timer is
    unarmed), all inside [observe_timeout], and the check of the last
    poll comes at least [black_pattern_sec] after the arming read of the
    first, then the loop returns BLACK_PATTERN in one poll of that run. *)
Theorem black_pattern_detected (cfg : probe_cfg) (start : Z)
    (pre : list cycle) (c_first : cycle) (mid' post : list cycle)
    (rs bs : option Z) :
  clock_ok start (pre ++ c_first :: mid') = true ->
  run_cycles cfg start None None pre = Continue rs bs ->
  forallb (fun c => black_cond (c_state c) && in_window cfg start c)
    (c_first :: mid') = true ->
  black_pattern_sec cfg
    <= c_t_bchk (last (c_first :: mid') c_first) - c_t_barm c_first ->
  exists mid1 c mid2, c_first :: mid' = mid1 ++ c :: mid2
    /\ black_cond (c_state c) = true
    /\ (exists rs' bs', run_cycles cfg start None None (pre ++ mid1)
                        = Continue rs' bs')
    /\ observe_loop cfg start (pre ++ (c_first :: mid') ++ post)
       = Some ("BLACK_PATTERN", black_detail (c_state c)).
Proof.
  intros Hclk Hpre Hall Hthr.
  destruct (clock_ok_split cfg start pre c_first mid' rs bs Hclk Hpre)
    as (b & Hb & _ & Hbb & _ & Hbs).
  assert (Hbc : black_cond (c_state c_first) = true).
  { unpack_forallb Hall. destruct Hall as [[H _] _]. exact H. }
  set (a := match bs with Some t => t | None => c_t_barm c_first end).
  assert (Harm : arm_black (c_state c_first) bs (c_t_barm c_first) = Some a).
  { unfold arm_black, a. rewrite Hbc. destruct bs; reflexivity. }
  assert (Ha : 0 < a <= c_t_barm c_first).
  { unfold a. destruct bs as [t|]; simpl in Hbs; lia. }
  destruct (black_streak cfg start (c_first :: mid') rs bs a c_first
              ltac:(lia) Hall Harm ltac:(lia))
    as (mid1 & c & mid2 & E & Hmid1 & Hret).
  exists mid1, c, mid2. split; [exact E|]. split.
  - assert (Hin : In c (c_first :: mid')) by (rewrite E; apply in_or_app; right; left; reflexivity).
    rewrite forallb_forall in Hall. specialize (Hall c Hin).
    rewrite andb_true_iff in Hall. tauto.
  - split.
    + destruct Hmid1 as (rs' & bs' & H). exists rs', bs'.
      rewrite run_cycles_app, Hpre. exact H.
    + unfold observe_loop. rewrite run_cycles_app, Hpre, run_cycles_app, Hret.
      reflexivity.
Qed.

(** Concrete polling traces: a poll every 250 ms, every clock read of an
    iteration at the poll time. *)
Definition poll_at (t : Z) (st : state) : cycle := mkCycle t st t t t t.

Fixpoint polls (n : nat) (t : Z) (st : state) : list cycle :=
  match n with
  | O => []
  | S n' => poll_at t st :: polls n' (t + 250) st
  end.

Definition cfg_default : probe_cfg := mkCfg 20000 2000 2000.

Definition st_renderer : state := mkState 1 1 1 1.
Definition st_black : state := mkState 1 0 1 1.

Lemma renderer_stable_started_witness :
  exists d, observe_loop cfg_default 1000 (polls 10 1000 st_renderer)
            = Some ("STARTED", d).
Proof.
  destruct (renderer_stable_started cfg_default 1000 [] (poll_at 1000 st_renderer)
              (polls 9 1250 st_renderer) [] None None)
    as (mid1 & c & mid2 & _ & _ & _ & H);
    [reflexivity | reflexivity | reflexivity | vm_compute; congruence |].
  exists (started_detail (c_state c)). exact H.
Defined.

Lemma black_pattern_detected_witness :
  exists d, observe_loop cfg_default 1000 (polls 9 1000 st_black)
            = Some ("BLACK_PATTERN", d).
Proof.
  destruct (black_pattern_detected cfg_default 1000 [] (poll_at 1000 st_black)
              (polls 8 1250 st_black) [] None None)
    as (mid1 & c & mid2 & _ & _ & _ & H);
    [reflexivity | reflexivity | reflexivity | vm_compute; congruence |].
  exists (black_detail (c_state c)). exact H.
Defined.

(** Scenario A of the spec, evaluated: STARTED at the ninth poll (2.0 s
    after the first), with the counts of that poll. *)
Example scenario_A :
  observe_loop cfg_default 1000 (polls 10 1000 st_renderer)
  = Some ("STARTED", "renderer stable (state={'main': 1, 'renderer': 1, 'gpu': 1, 'utility': 1})")
  /\ run_cycles cfg_default 1000 None None (polls 8 1000 st_renderer)
     = Continue (Some 1000) None.
Proof. split; reflexivity. Qed.

(* ------------------------------------------------------------------ *)
(** ** Debounce reset *)

Lemma decide_verdict_started (cfg : probe_cfg) (st : state) rs bs tr tb d :
  decide_verdict cfg st rs bs tr tb = Some ("STARTED", d) ->
  exists r, rs = Some r /\ r <> 0 /\ renderer_stable_sec cfg <= tr - r.
Proof.
  unfold decide_verdict.
  destruct rs as [r|]; cbn [truthy andb].
  - destruct (negb (r =? 0) && (renderer_stable_sec cfg <=? tr - r))%bool eqn:E.
    + intros _. rewrite andb_true_iff, negb_true_iff, Z.eqb_neq, Z.leb_le in E.
      exists r. tauto.
    + destruct (truthy bs && _)%bool; discriminate.
  - destruct (truthy bs && _)%bool; discriminate.
Qed.

Lemma decide_verdict_black (cfg : probe_cfg) (st : state) rs bs tr tb d :
  decide_verdict cfg st rs bs tr tb = Some ("BLACK_PATTERN", d) ->
  exists b, bs = Some b /\ b <> 0 /\ black_pattern_sec cfg <= tb - b.
Proof.
  unfold decide_verdict.
  destruct (truthy rs && _)%bool; [discriminate|].
  destruct bs as [b|]; cbn [truthy andb]; [|discriminate].
  destruct (negb (b =? 0) && (black_pattern_sec cfg <=? tb - b))%bool eqn:E;
    [|discriminate].
  intros _. rewrite andb_true_iff, negb_true_iff, Z.eqb_neq, Z.leb_le in E.
  exists b. tauto.
Qed.

(** A streak shorter than the threshold, measured from its arming read. *)
Definition short_streak (thr : Z) (arm chk : cycle -> Z) (l : list cycle) : bool :=
  match l with
  | [] => true
  | c1 :: _ => forallb (fun c => chk c - arm c1 <? thr) l
  end.

Lemma renderer_short_no_start (cfg : probe_cfg) (start : Z) (l : list cycle) :
  forall rs bs a d,
  forallb (fun c => 0 <? renderer (c_state c)) l = true ->
  forallb (fun c => c_t_rchk c - a <? renderer_stable_sec cfg) l = true ->
  match l with
  | c :: _ => arm_renderer (c_state c) rs (c_t_rarm c) = Some a
  | [] => True
  end ->
  run_cycles cfg start rs bs l <> Return "STARTED" d.
Proof.
  induction l as [|c l IH]; intros rs bs a d Hall Hshort Harm; [discriminate|].
  unpack_forallb Hall. unpack_forallb Hshort.
  destruct Hall as [Hrc Hall]. destruct Hshort as [Hs Hshort].
  cbn [run_cycles]. unfold cycle_step.
  destruct (c_now c - start <? observe_timeout_sec cfg); [|discriminate].
  cbn [negb]. rewrite Harm.
  destruct (decide_verdict cfg (c_state c) (Some a) _ (c_t_rchk c) (c_t_bchk c))
    as [[s d']|] eqn:Ev.
  - intros E. injection E as Es _. subst s.
    apply decide_verdict_started in Ev as (r & Er & _ & Hle).
    injection Er as <-. apply Z.ltb_lt in Hs. lia.
  - apply (IH (Some a) _ a d Hall Hshort).
    destruct l as [|c' l']; [exact I|].
    unpack_forallb Hall. destruct Hall as [Hrc' _].
    unfold arm_renderer. rewrite Hrc'. reflexivity.
Qed.

Lemma black_short_no_black (cfg : probe_cfg) (start : Z) (l : list cycle) :
  forall rs bs a d,
  forallb (fun c => black_cond (c_state c)) l = true ->
  forallb (fun c => c_t_bchk c - a <? black_pattern_sec cfg) l = true ->
  match l with
  | c :: _ => arm_black (c_state c) bs (c_t_barm c) = Some a
  | [] => True
  end ->
  run_cycles cfg start rs bs l <> Return "BLACK_PATTERN" d.
Proof.
  induction l as [|c l IH]; intros rs bs a d Hall Hshort Harm; [discriminate|].
  unpack_forallb Hall. unpack_forallb Hshort.
  destruct Hall as [Hbc Hall]. destruct Hshort as [Hs Hshort].
  cbn [run_cycles]. unfold cycle_step.
  destruct (c_now c - start <? observe_timeout_sec cfg); [|discriminate].
  cbn [negb]. rewrite Harm.
  destruct (decide_verdict cfg (c_state c) _ (Some a) (c_t_rchk c) (c_t_bchk c))
    as [[s d']|] eqn:Ev.
  - intros E. injection E as Es _. subst s.
    apply decide_verdict_black in Ev as (b & Eb & _ & Hle).
    injection Eb as <-. apply Z.ltb_lt in Hs. lia.
  - apply (IH _ (Some a) a d Hall Hshort).
    destruct l as [|c' l']; [exact I|].
    unpack_forallb Hall. destruct Hall as [Hbc' _].
    unfold arm_black. rewrite Hbc'. reflexivity.
Qed.

(** C3: one snapshot where a condition is false resets its debounce.  A
    renderer streak [mid1] shorter than [renderer_stable_sec] (from its
    arming read), one poll [f] without a renderer, and a second such
    streak [mid2] never give STARTED; likewise for the black-pattern
    condition and BLACK_PATTERN, with [black_pattern_sec]. *)
Theorem debounce_reset (cfg : probe_cfg) (start : Z)
    (mid1 : list cycle) (f : cycle) (mid2 : list cycle) (d : string) :
  (forallb (fun c => 0 <? renderer (c_state c)) mid1 = true ->
   (0 <? renderer (c_state f)) = false ->
   forallb (fun c => 0 <? renderer (c_state c)) mid2 = true ->
   short_streak (renderer_stable_sec cfg) c_t_rarm c_t_rchk mid1 = true ->
   short_streak (renderer_stable_sec cfg) c_t_rarm c_t_rchk mid2 = true ->
   run_cycles cfg start None None (mid1 ++ f :: mid2) <> Return "STARTED" d)
  /\
  (forallb (fun c => black_cond (c_state c)) mid1 = true ->
   black_cond (c_state f) = false ->
   forallb (fun c => black_cond (c_state c)) mid2 = true ->
   short_streak (black_pattern_sec cfg) c_t_barm c_t_bchk mid1 = true ->
   short_streak (black_pattern_sec cfg) c_t_barm c_t_bchk mid2 = true ->
   run_cycles cfg start None None (mid1 ++ f :: mid2)
     <> Return "BLACK_PATTERN" d).
Proof.
  split.
  - intros H1 Hf H2 S1 S2. rewrite run_cycles_app.
    destruct (run_cycles cfg start None None mid1) as [rs bs|s d'] eqn:Hrun.
    + cbn [run_cycles]. unfold cycle_step.
      destruct (c_now f - start <? observe_timeout_sec cfg); [|discriminate].
      cbn [negb].
      assert (Er : arm_renderer (c_state f) rs (c_t_rarm f) = None)
        by (unfold arm_renderer; rewrite Hf; reflexivity).
      rewrite Er.
      destruct (decide_verdict cfg (c_state f) None _ (c_t_rchk f) (c_t_bchk f))
        as [[s d']|] eqn:Ev.
      * intros E. injection E as Es _. subst s.
        apply decide_verdict_started in Ev as (r & Hr & _). discriminate.
      * destruct mid2 as [|c2 mid2']; [discriminate|].
        apply (renderer_short_no_start _ _ _ None _ (c_t_rarm c2) d H2 S2).
        unpack_forallb H2. destruct H2 as [Hc2 _].
        unfold arm_renderer. rewrite Hc2. reflexivity.
    + intros E. rewrite E in Hrun. revert Hrun.
      destruct mid1 as [|c1 mid1']; [discriminate|].
      apply (renderer_short_no_start _ _ _ None None (c_t_rarm c1) d H1 S1).
      unpack_forallb H1. destruct H1 as [Hc1 _].
      unfold arm_renderer. rewrite Hc1. reflexivity.
  - intros H1 Hf H2 S1 S2. rewrite run_cycles_app.
    destruct (run_cycles cfg start None None mid1) as [rs bs|s d'] eqn:Hrun.
    + cbn [run_cycles]. unfold cycle_step.
      destruct (c_now f - start <? observe_timeout_sec cfg); [|discriminate].
      cbn [negb].
      assert (Eb : arm_black (c_state f) bs (c_t_barm f) = None)
        by (unfold arm_black; rewrite Hf; reflexivity).
      rewrite Eb.
      destruct (decide_verdict cfg (c_state f) _ None (c_t_rchk f) (c_t_bchk f))
        as [[s d']|] eqn:Ev.
      * intros E. injection E as Es _. subst s.
        apply decide_verdict_black in Ev as (b & Hb & _). discriminate.
      * destruct mid2 as [|c2 mid2']; [discriminate|].
        apply (black_short_no_black _ _ _ _ None (c_t_barm c2) d H2 S2).
        unpack_forallb H2. destruct H2 as [Hc2 _].
        unfold arm_black. rewrite Hc2. reflexivity.
    + intros E. rewrite E in Hrun. revert Hrun.
      destruct mid1 as [|c1 mid1']; [discriminate|].
      apply (black_short_no_black _ _ _ None None (c_t_barm c1) d H1 S1).
      unpack_forallb H1. destruct H1 as [Hc1 _].
      unfold arm_black. rewrite Hc1. reflexivity.
Qed.

(** Renderer for 1.75 s, one poll without it, renderer again for 1.75 s:
    no STARTED with a 2 s threshold; the same shape for the black
    pattern gives no BLACK_PATTERN. *)
Lemma debounce_reset_witness :
  run_cycles cfg_default 1000 None None
    (polls 8 1000 st_renderer ++ poll_at 3000 st_black :: polls 8 3250 st_renderer)
    <> Return "STARTED" ""
  /\ run_cycles cfg_default 1000 None None
    (polls 8 1000 st_black ++ poll_at 3000 st_renderer :: polls 8 3250 st_black)
    <> Return "BLACK_PATTERN" "".
Proof.
  split.
  - apply (proj1 (debounce_reset cfg_default 1000 (polls 8 1000 st_renderer)
                    (poll_at 3000 st_black) (polls 8 3250 st_renderer) ""));
      reflexivity.
  - apply (proj2 (debounce_reset cfg_default 1000 (polls 8 1000 st_black)
                    (poll_at 3000 st_renderer) (polls 8 3250 st_black) ""));
      reflexivity.
Defined.

(* ------------------------------------------------------------------ *)
(** ** Precedence, timeout, and the truthiness of the timers *)

(** After the arming steps of one iteration, the two timers are never
    both armed: the conditions disagree on the renderer count. *)
Lemma timers_exclusive (st : state) rs bs t1 t2 r :
  arm_renderer st rs t1 = Some r -> arm_black st bs t2 = None.
Proof.
  unfold arm_renderer, arm_black.
  destruct (0 <? renderer st) eqn:E; [|discriminate].
  intros _. apply Z.ltb_lt in E. rewrite (renderer_excludes_black _ E).
  reflexivity.
Qed.

(** C4: in the decision of lines 210-214, when both timers are armed (at
    positive clock times) and both are past their thresholds, the
    verdict is STARTED: the renderer check comes first. *)
Theorem renderer_precedence (cfg : probe_cfg) (st : state) (r b tr tb : Z) :
  0 < r -> 0 < b ->
  renderer_stable_sec cfg <= tr - r ->
  black_pattern_sec cfg <= tb - b ->
  decide_verdict cfg st (Some r) (Some b) tr tb
  = Some ("STARTED", started_detail st).
Proof.
  intros Hr _ Htr _. unfold decide_verdict. cbn [truthy].
  assert (E : (r =? 0) = false) by (apply Z.eqb_neq; lia).
  apply Z.leb_le in Htr. rewrite E, Htr. reflexivity.
Qed.

Lemma renderer_precedence_witness :
  decide_verdict cfg_default st_black (Some 1000) (Some 1200) 3000 3250
  = Some ("STARTED", started_detail st_black).
Proof. apply renderer_precedence; simpl; lia. Defined.

Lemma decide_verdict_status (cfg : probe_cfg) (st : state) rs bs tr tb s d :
  decide_verdict cfg st rs bs tr tb = Some (s, d) ->
  s = "STARTED" \/ s = "BLACK_PATTERN".
Proof.
  unfold decide_verdict.
  destruct (truthy rs && _)%bool.
  - intros E. injection E as <- _. left. reflexivity.
  - destruct (truthy bs && _)%bool; [|discriminate].
    intros E. injection E as <- _. right. reflexivity.
Qed.

Lemma run_cycles_other_is_timeout (cfg : probe_cfg) (start : Z) (cs : list cycle) :
  forall rs bs s d,
  run_cycles cfg start rs bs cs = Return s d ->
  s <> "STARTED" -> s <> "BLACK_PATTERN" ->
  exists pre c post rs' bs', cs = pre ++ c :: post
    /\ run_cycles cfg start rs bs pre = Continue rs' bs'
    /\ in_window cfg start c = false
    /\ s = "TIMEOUT" /\ d = timeout_detail cfg (c_state c).
Proof.
  induction cs as [|c cs IH]; intros rs bs s d Hrun Hs Hb; [discriminate|].
  cbn [run_cycles] in Hrun.
  destruct (in_window cfg start c) eqn:Hw.
  - rewrite (cycle_step_in_window _ _ _ _ _ Hw) in Hrun. cbv zeta in Hrun.
    destruct (decide_verdict _ _ _ _ _ _) as [[s' d']|] eqn:Ev.
    + injection Hrun as <- _.
      destruct (decide_verdict_status _ _ _ _ _ _ _ _ Ev); contradiction.
    + destruct (IH _ _ _ _ Hrun Hs Hb)
        as (pre & c' & post & rs' & bs' & E & Hpre & Hw' & Hst & Hd).
      exists (c :: pre), c', post, rs', bs'. subst cs.
      repeat split; try assumption.
      cbn [run_cycles]. rewrite (cycle_step_in_window _ _ _ _ _ Hw).
      cbv zeta. rewrite Ev. exact Hpre.
  - unfold cycle_step, in_window in *. rewrite Hw in Hrun. cbn [negb] in Hrun.
    injection Hrun as <- <-.
    exists [], c, cs, rs, bs. repeat split. exact Hw.
Qed.

(** C5: if no verdict came before a poll [c] whose loop-condition clock
    read is [observe_timeout] or more after [start], the loop returns
    TIMEOUT with the counts of the fresh snapshot taken after the loop
    (the last one observed); and every loop result other than STARTED
    and BLACK_PATTERN is such a TIMEOUT. *)
Theorem timeout_verdict (cfg : probe_cfg) (start : Z) :
  (forall pre c post rs bs,
     run_cycles cfg start None None pre = Continue rs bs ->
     in_window cfg start c = false ->
     observe_loop cfg start (pre ++ c :: post)
     = Some ("TIMEOUT", timeout_detail cfg (c_state c)))
  /\
  (forall cs s d,
     observe_loop cfg start cs = Some (s, d) ->
     s <> "STARTED" -> s <> "BLACK_PATTERN" ->
     exists pre c post rs bs, cs = pre ++ c :: post
       /\ run_cycles cfg start None None pre = Continue rs bs
       /\ in_window cfg start c = false
       /\ s = "TIMEOUT" /\ d = timeout_detail cfg (c_state c)).
Proof.
  split.
  - intros pre c post rs bs Hpre Hw.
    unfold observe_loop. rewrite run_cycles_app, Hpre.
    cbn [run_cycles]. unfold cycle_step. unfold in_window in Hw. rewrite Hw.
    reflexivity.
  - intros cs s d Hl Hs Hb. unfold observe_loop in Hl.
    destruct (run_cycles cfg start None None cs) as [|s' d'] eqn:Hrun;
      [discriminate|].
    injection Hl as -> ->.
    exact (run_cycles_other_is_timeout _ _ _ _ _ _ _ Hrun Hs Hb).
Qed.

Lemma timeout_verdict_witness :
  observe_loop cfg_default 1000
    (polls 3 1000 st_black ++ poll_at 21000 st_renderer :: [])
  = Some ("TIMEOUT", timeout_detail cfg_default st_renderer)
  /\ timeout_detail cfg_default st_renderer
     = "no stable renderer within 20s (state={'main': 1, 'renderer': 1, 'gpu': 1, 'utility': 1})".
Proof.
  split; [|reflexivity].
  apply (proj1 (timeout_verdict cfg_default 1000) (polls 3 1000 st_black)
           (poll_at 21000 st_renderer) [] None (Some 1000));
    reflexivity.
Defined.

(** C9: Python tests [renderer_since] and [black_since] for truthiness,
    so a timer armed at exactly 0.0 counts as unarmed: with such a
    timer the decision never gives its verdict, even past the
    threshold; in the loop, an iteration that keeps the renderer timer
    at 0.0 (renderer still present) or the black timer at 0.0 (pattern
    still present) continues without a verdict. *)
Theorem zero_arm_time_unarmed (cfg : probe_cfg) (start : Z) (c c' : cycle)
    (rs bs : option Z) :
  (forall st bs tr tb d,
     decide_verdict cfg st (Some 0) bs tr tb <> Some ("STARTED", d))
  /\ (forall st rs tr tb d,
     decide_verdict cfg st rs (Some 0) tr tb <> Some ("BLACK_PATTERN", d))
  /\ (in_window cfg start c = true ->
      0 < renderer (c_state c) ->
      renderer_stable_sec cfg <= c_t_rchk c - 0 ->
      cycle_step cfg start (Some 0) bs c = Continue (Some 0) None)
  /\ (in_window cfg start c' = true ->
      black_cond (c_state c') = true ->
      black_pattern_sec cfg <= c_t_bchk c' - 0 ->
      cycle_step cfg start rs (Some 0) c' = Continue None (Some 0)).
Proof.
  split; [|split; [|split]].
  - intros st bs' tr tb d E.
    apply decide_verdict_started in E as (r & Er & Hr & _).
    injection Er as <-. contradiction.
  - intros st rs' tr tb d E.
    apply decide_verdict_black in E as (b & Eb & Hb & _).
    injection Eb as <-. contradiction.
  - intros Hw Hrc _. rewrite (cycle_step_in_window _ _ _ _ _ Hw).
    cbv zeta. unfold arm_renderer. apply Z.ltb_lt in Hrc as Hrc'. rewrite Hrc'.
    unfold arm_black. rewrite (renderer_excludes_black _ Hrc).
    reflexivity.
  - intros Hw Hbc _. rewrite (cycle_step_in_window _ _ _ _ _ Hw).
    cbv zeta. unfold arm_black. rewrite Hbc.
    unfold arm_renderer. rewrite (black_excludes_renderer _ Hbc).
    reflexivity.
Qed.

Lemma zero_arm_time_unarmed_witness :
  cycle_step cfg_default 0 (Some 0) None (poll_at 5000 st_renderer)
    = Continue (Some 0) None
  /\ cycle_step cfg_default 0 None (Some 0) (poll_at 5000 st_black)
    = Continue None (Some 0).
Proof.
  pose proof (zero_arm_time_unarmed cfg_default 0 (poll_at 5000 st_renderer)
                (poll_at 5000 st_black) None None) as (_ & _ & H1 & H2).
  split; [apply H1 | apply H2]; try reflexivity; vm_compute; congruence.
Defined.

(** A clock that starts at 0.0 never lets the renderer timer fire: the
    probe times out although the renderer is present all along. *)
Example zero_clock_times_out :
  observe_loop cfg_default 0 (polls 80 0 st_renderer ++ [poll_at 20000 st_renderer])
  = Some ("TIMEOUT", timeout_detail cfg_default st_renderer).
Proof. vm_compute. reflexivity. Qed.

(* ------------------------------------------------------------------ *)
(** ** [main]: one record per request, teardown after each record *)

Fixpoint printed (evs : list event) : list string :=
  match evs with
  | [] => []
  | Print l :: r => l :: printed r
  | _ :: r => printed r
  end.

Definition is_print (e : event) : bool :=
  match e with Print _ => true | _ => false end.

Lemma printed_app (l1 l2 : list event) :
  printed (l1 ++ l2) = printed l1 ++ printed l2.
Proof.
  induction l1 as [|e l1 IH]; [reflexivity|].
  destruct e; simpl; rewrite ?IH; reflexivity.
Qed.

(** [quick_probe] raises: the executable exists and [Popen] fails *)
Definition probe_raises (env : probe_env) : bool :=
  exe_exists env && match popen env with Raise _ => true | Ok _ => false end.

(** Provisioning, installation or the probe of one version raises *)
Definition raises (ve : version_env) : bool :=
  match download ve with
  | Raise _ => true
  | Ok _ => match install ve with
            | Raise _ => true
            | Ok _ => probe_raises (probe ve)
            end
  end.

Lemma run_one_spec (cfg : probe_cfg) (kind version : string) (ve : version_env) :
  quick_probe cfg (probe ve) <> None ->
  exists p status summary,
    run_one cfg kind version ve = Some (p ++ [Print (csv_line kind version status summary)])
    /\ forallb (fun e => negb (is_print e)) p = true
    /\ (raises ve = true -> status = "ERROR")
    /\ (raises ve = false ->
        exists pevs, quick_probe cfg (probe ve) = Some (Ok (status, summary), pevs)).
Proof.
  intros Hq. unfold run_one, raises.
  destruct (download ve) as [[]|m].
  2:{ exists [], "ERROR", m. repeat split; discriminate. }
  destruct (install ve) as [[]|m].
  2:{ exists [], "ERROR", m. repeat split; discriminate. }
  destruct (quick_probe cfg (probe ve)) as [[[[s d]|m] pevs]|] eqn:Eq;
    [| |contradiction].
  - exists pevs, s, d. split; [reflexivity|].
    revert Eq. unfold quick_probe, probe_raises.
    destruct (exe_exists (probe ve)); cbn [negb andb].
    + destruct (popen (probe ve)) as [[]|m]; [|discriminate].
      destruct (observe_loop _ _ _); [|discriminate].
      intros E. injection E; intros; subst.
      split; [reflexivity|split; [discriminate|intros _; eexists; reflexivity]].
    + intros E. injection E; intros; subst.
      split; [reflexivity|split; [discriminate|intros _; eexists; reflexivity]].
  - exists pevs, "ERROR", m. split; [reflexivity|].
    revert Eq. unfold quick_probe, probe_raises.
    destruct (exe_exists (probe ve)); cbn [negb andb]; [|discriminate].
    destruct (popen (probe ve)) as [[]|m']; [destruct (observe_loop _ _ _); discriminate|].
    intros E. injection E; intros; subst.
    split; [reflexivity|split; [reflexivity|discriminate]].
Qed.

Lemma main_loop_spec (cfg : probe_cfg) (reqs : list (string * string)) :
  forall envs,
  List.length envs = List.length reqs ->
  Forall (fun ve => quick_probe cfg (probe ve) <> None) envs ->
  exists evs lines, main_loop cfg reqs envs = Some evs
    /\ printed evs = lines
    /\ List.length lines = List.length reqs
    /\ forall i kind version ve,
         nth_error reqs i = Some (kind, version) -> nth_error envs i = Some ve ->
         exists status summary,
           nth_error lines i = Some (csv_line kind version status summary)
           /\ (raises ve = true -> status = "ERROR")
           /\ (raises ve = false -> exists pevs,
                 quick_probe cfg (probe ve) = Some (Ok (status, summary), pevs)).
Proof.
  induction reqs as [|[kind version] reqs IH]; intros envs Hlen Hall.
  - exists [], []. repeat split. intros [|i]; discriminate.
  - destruct envs as [|ve envs]; [discriminate|].
    inversion Hall as [|? ? Hq Hall']; subst.
    injection Hlen as Hlen.
    destruct (run_one_spec cfg kind version ve Hq)
      as (p & status & summary & Hrun & Hp & He & Hok).
    destruct (IH envs Hlen Hall') as (evs & lines & Hml & Hpr & Hl & Hnth).
    exists (Teardown :: (p ++ [Print (csv_line kind version status summary)]) ++ evs),
           (csv_line kind version status summary :: lines).
    split; [cbn [main_loop]; rewrite Hrun, Hml; reflexivity|].
    split.
    { cbn [printed]. rewrite !printed_app.
      assert (Pp : printed p = []).
      { clear -Hp. induction p as [|e p IHp]; [reflexivity|].
        destruct e; cbn in *; try discriminate; auto. }
      rewrite Pp, Hpr. reflexivity. }
    split; [cbn; rewrite Hl; reflexivity|].
    intros [|i] k v ve' Hr He'.
    + injection Hr as <- <-. injection He' as <-.
      exists status, summary. auto.
    + exact (Hnth i k v ve' Hr He').
Qed.

(** C7: for well-formed entries and one environment per request (each
    probe reaching an outcome), [main] prints the header and then
    exactly one record per request, in input order; the record of a
    request whose download, installation or probe raises is an ERROR
    record for that request, and the records of the others are the
    probe's own verdicts. *)
Theorem main_one_record_per_request (cfg : probe_cfg) (entries : list string)
    (reqs : list (string * string)) (envs : list version_env) :
  parse_all entries = Ok reqs ->
  List.length envs = List.length reqs ->
  Forall (fun ve => quick_probe cfg (probe ve) <> None) envs ->
  exists evs lines, main_prog cfg entries envs = Some (Ok tt, evs)
    /\ printed evs = header :: lines
    /\ List.length lines = List.length reqs
    /\ forall i kind version ve,
         nth_error reqs i = Some (kind, version) -> nth_error envs i = Some ve ->
         exists status summary,
           nth_error lines i = Some (csv_line kind version status summary)
           /\ (raises ve = true -> status = "ERROR")
           /\ (raises ve = false -> exists pevs,
                 quick_probe cfg (probe ve) = Some (Ok (status, summary), pevs)).
Proof.
  intros Hp Hlen Hall.
  destruct (main_loop_spec cfg reqs envs Hlen Hall)
    as (evs & lines & Hml & Hpr & Hl & Hnth).
  exists (Print header :: evs ++ [Teardown]), lines.
  split; [unfold main_prog; rewrite Hp, Hml; reflexivity|].
  split; [cbn [printed]; rewrite printed_app, Hpr, app_nil_r; reflexivity|].
  auto.
Qed.

(** Scenario D of the spec: the download of the first version fails, the
    second version is installed and its probe times out. *)
Definition scenario_D_entries : list string := ["wand:12.0.3"; "wemod:11.6.0"].

Definition env_download_fails : version_env :=
  mkVersionEnv (Raise "download failed") (Ok tt) (mkProbeEnv false (Ok tt) 1000 []).

Definition env_times_out : version_env :=
  mkVersionEnv (Ok tt) (Ok tt)
    (mkProbeEnv true (Ok tt) 1000 (polls 4 1000 state0 ++ [poll_at 21000 state0])).

Lemma main_one_record_per_request_witness :
  exists evs lines,
    main_prog cfg_default scenario_D_entries [env_download_fails; env_times_out]
      = Some (Ok tt, evs)
    /\ printed evs = header :: lines /\ List.length lines = 2%nat.
Proof.
  destruct (main_one_record_per_request cfg_default scenario_D_entries
              [("wand", "12.0.3"); ("wemod", "11.6.0")]
              [env_download_fails; env_times_out])
    as (evs & lines & H1 & H2 & H3 & _);
    [reflexivity | reflexivity | |].
  { constructor; [vm_compute; discriminate|].
    constructor; [vm_compute; discriminate|]. constructor. }
  exists evs, lines. auto.
Defined.

Example scenario_D :
  option_map (fun r => printed (snd r))
    (main_prog cfg_default scenario_D_entries [env_download_fails; env_times_out])
  = Some [header;
          "wand,12.0.3,ERROR,download failed";
          "wemod,11.6.0,TIMEOUT,no stable renderer within 20s (state={'main': 0; 'renderer': 0; 'gpu': 0; 'utility': 0})"].
Proof. vm_compute. reflexivity. Qed.

(** After every printed line, the next event is a teardown call. *)
Definition teardown_after_prints (evs : list event) : Prop :=
  forall pre l post, evs = pre ++ Print l :: post ->
  exists post', post = Teardown :: post'.

Lemma tap_cons (e : event) (L : list event) :
  is_print e = false -> teardown_after_prints L -> teardown_after_prints (e :: L).
Proof.
  intros He H [|e' pre] l post E.
  - injection E as -> _. discriminate.
  - injection E as _ E. exact (H pre l post E).
Qed.

Lemma tap_print (x : string) (L : list event) :
  teardown_after_prints L -> (exists r, L = Teardown :: r) ->
  teardown_after_prints (Print x :: L).
Proof.
  intros H [r Hr] [|e' pre] l post E.
  - injection E as _ <-. exists r. exact Hr.
  - injection E as _ E. exact (H pre l post E).
Qed.

Lemma tap_app_nonprint (p L : list event) :
  forallb (fun e => negb (is_print e)) p = true ->
  teardown_after_prints L -> teardown_after_prints (p ++ L).
Proof.
  induction p as [|e p IH]; [auto|].
  simpl. rewrite andb_true_iff, negb_true_iff. intros [He Hp] HL.
  apply tap_cons; auto.
Qed.

Lemma run_one_shape (cfg : probe_cfg) (kind version : string)
    (ve : version_env) (evs : list event) :
  run_one cfg kind version ve = Some evs ->
  exists p l, evs = p ++ [Print l] /\ forallb (fun e => negb (is_print e)) p = true.
Proof.
  unfold run_one.
  destruct (download ve) as [[]|m];
    [|intros E; injection E as <-; eexists [], _; split; reflexivity].
  destruct (install ve) as [[]|m];
    [|intros E; injection E as <-; eexists [], _; split; reflexivity].
  unfold quick_probe.
  destruct (exe_exists (probe ve)); cbn [negb].
  - destruct (popen (probe ve)) as [[]|m].
    + destruct (observe_loop _ _ _) as [[s d]|]; [|discriminate].
      intros E. injection E as <-.
      exists [Launch; KillChild; Teardown], (csv_line kind version s d).
      split; reflexivity.
    + intros E. injection E as <-. eexists [], _. split; reflexivity.
  - intros E. injection E as <-. eexists [], _. split; reflexivity.
Qed.

Lemma main_loop_teardowns (cfg : probe_cfg) (reqs : list (string * string)) :
  forall envs evs,
  main_loop cfg reqs envs = Some evs ->
  teardown_after_prints (evs ++ [Teardown])
  /\ exists r, evs ++ [Teardown] = Teardown :: r.
Proof.
  induction reqs as [|[kind version] reqs IH]; intros envs evs Hml.
  - destruct envs; injection Hml as <-; split;
      [ apply tap_cons; [reflexivity|]; intros [|e pre] l post E;
          [discriminate | destruct pre; discriminate]
      | eexists; reflexivity
      | apply tap_cons; [reflexivity|]; intros [|e pre] l post E;
          [discriminate | destruct pre; discriminate]
      | eexists; reflexivity ].
  - destruct envs as [|ve envs]; [discriminate|].
    cbn [main_loop] in Hml.
    destruct (run_one cfg kind version ve) as [evs1|] eqn:E1; [|discriminate].
    destruct (main_loop cfg reqs envs) as [rest|] eqn:E2; [|discriminate].
    injection Hml as <-.
    destruct (run_one_shape _ _ _ _ _ E1) as (p & l & -> & Hp).
    destruct (IH envs rest E2) as [Htap [r Hr]].
    split; [|eexists; reflexivity].
    cbn [app]. apply tap_cons; [reflexivity|].
    rewrite <- !app_assoc. apply tap_app_nonprint; [exact Hp|].
    cbn [app]. apply tap_print; [exact Htap | exists r; exact Hr].
Qed.

(** C6, counterexample: on the missing-executable path [quick_probe]
    returns before its [try]/[finally], so it launches nothing and makes
    no teardown call of its own. *)
Lemma quick_probe_missing_no_teardown :
  quick_probe cfg_default (mkProbeEnv false (Ok tt) 1000 [])
  = Some (Ok ("ERROR", "WeMod.exe missing after install"), [])
  /\ ~ In Teardown [].
Proof. split; [reflexivity | intros []]. Qed.

(** C6 (amended): when [WeMod.exe] is absent, [quick_probe] returns
    ("ERROR", "WeMod.exe missing after install") with no event: nothing
    is launched and it makes no teardown call itself.  The teardown of
    [main] still follows: in [main]'s events every printed line, the
    record of this version included, is immediately followed by a call
    of [kill_wemod_processes()]. *)
Theorem missing_executable_error (cfg : probe_cfg) (env : probe_env)
    (entries : list string) (envs : list version_env) (evs : list event) :
  (exe_exists env = false ->
   quick_probe cfg env = Some (Ok ("ERROR", "WeMod.exe missing after install"), []))
  /\ (main_prog cfg entries envs = Some (Ok tt, evs) ->
      teardown_after_prints evs).
Proof.
  split.
  - intros H. unfold quick_probe. rewrite H. reflexivity.
  - unfold main_prog. destruct (parse_all entries) as [reqs|m]; [|discriminate].
    destruct (main_loop cfg reqs envs) as [ml|] eqn:Eml; [|discriminate].
    intros E. injection E as <-.
    destruct (main_loop_teardowns cfg reqs envs ml Eml) as [Htap Hr].
    apply tap_print; assumption.
Qed.

Definition env_missing_exe : version_env :=
  mkVersionEnv (Ok tt) (Ok tt) (mkProbeEnv false (Ok tt) 1000 []).

Lemma missing_executable_error_witness :
  quick_probe cfg_default (probe env_missing_exe)
    = Some (Ok ("ERROR", "WeMod.exe missing after install"), [])
  /\ main_prog cfg_default ["wand:12.0.3"] [env_missing_exe]
    = Some (Ok tt, [Print header; Teardown;
                    Print "wand,12.0.3,ERROR,WeMod.exe missing after install";
                    Teardown])
  /\ teardown_after_prints [Print header; Teardown;
                    Print "wand,12.0.3,ERROR,WeMod.exe missing after install";
                    Teardown].
Proof.
  assert (Hm : main_prog cfg_default ["wand:12.0.3"] [env_missing_exe]
    = Some (Ok tt, [Print header; Teardown;
                    Print "wand,12.0.3,ERROR,WeMod.exe missing after install";
                    Teardown])) by reflexivity.
  split; [apply (missing_executable_error cfg_default (probe env_missing_exe)
                   [] [] []); reflexivity|].
  split; [exact Hm|].
  apply (missing_executable_error cfg_default (probe env_missing_exe)
           ["wand:12.0.3"] [env_missing_exe]).
  exact Hm.
Defined.

(* ================================================================== *)
(** * Further properties of the script *)

(* ------------------------------------------------------------------ *)
(** ** [str.strip] is idempotent; [parse_version_entry] round trip *)

Module StripFacts.
Import Str.

Definition starts_ok (s : string) : Prop :=
  match s with
  | String c _ => is_space c = false
  | EmptyString => True
  end.

Lemma append_assoc (x y z : string) :
  (x ++ (y ++ z))%string = ((x ++ y) ++ z)%string.
Proof. induction x as [|c x IH]; simpl; [reflexivity|]. rewrite IH. reflexivity. Qed.

Lemma append_empty_r (x : string) : (x ++ "")%string = x.
Proof. induction x as [|c x IH]; simpl; [reflexivity|]. rewrite IH. reflexivity. Qed.

Lemma rev_str_acc (s acc : string) : rev_str s acc = (rev_str s "" ++ acc)%string.
Proof.
  revert acc. induction s as [|c s IH]; intros acc; [reflexivity|].
  simpl. rewrite (IH (String c acc)), (IH (String c "")).
  rewrite <- append_assoc. reflexivity.
Qed.

Lemma rev_str_app (x y : string) :
  rev_str (x ++ y) "" = (rev_str y "" ++ rev_str x "")%string.
Proof.
  induction x as [|c x IH]; simpl.
  - rewrite append_empty_r. reflexivity.
  - rewrite (rev_str_acc (x ++ y) (String c "")), IH,
      (rev_str_acc x (String c "")), append_assoc.
    reflexivity.
Qed.

Lemma rev_str_involutive (s : string) : rev_str (rev_str s "") "" = s.
Proof.
  induction s as [|c s IH]; [reflexivity|].
  simpl. rewrite (rev_str_acc s (String c "")), rev_str_app, IH. reflexivity.
Qed.

Lemma lstrip_starts_ok (s : string) : starts_ok (lstrip s).
Proof.
  induction s as [|c s IH]; [exact I|].
  simpl. destruct (is_space c) eqn:E; [exact IH|exact E].
Qed.

Lemma lstrip_of_ok (s : string) : starts_ok s -> lstrip s = s.
Proof. destruct s as [|c s]; simpl; [reflexivity|]. intros ->. reflexivity. Qed.

Lemma lstrip_suffix (s : string) : exists p, s = (p ++ lstrip s)%string.
Proof.
  induction s as [|c s [p IH]]; [exists ""; reflexivity|].
  simpl. destruct (is_space c).
  - exists (String c p). simpl. rewrite <- IH. reflexivity.
  - exists "". reflexivity.
Qed.

Lemma starts_ok_app (x y : string) : x <> "" -> starts_ok (x ++ y) -> starts_ok x.
Proof. destruct x; [contradiction|]. simpl. auto. Qed.

(** [s.strip().strip() == s.strip()] *)
Lemma strip_idem (s : string) : strip (strip s) = strip s.
Proof.
  unfold strip.
  set (w := rev_str (lstrip s) "").
  set (u := lstrip w).
  assert (Hu : starts_ok (rev_str u "")).
  { destruct (lstrip_suffix w) as [p Hp]. fold u in Hp.
    assert (Hw : starts_ok (rev_str w "")).
    { unfold w. rewrite rev_str_involutive. apply lstrip_starts_ok. }
    rewrite Hp, rev_str_app in Hw.
    destruct (string_dec (rev_str u "") "") as [E|E]; [rewrite E; exact I|].
    exact (starts_ok_app _ _ E Hw). }
  rewrite (lstrip_of_ok _ Hu), rev_str_involutive.
  rewrite (lstrip_of_ok u (lstrip_starts_ok w)). reflexivity.
Qed.

End StripFacts.

(** X1: what [parse_version_entry] returns parses back to itself when
    written as "kind:version": the kind is "wand" or "wemod", the
    version is non-empty and already stripped. *)
Theorem parse_version_entry_roundtrip (e kind version : string) :
  parse_version_entry e = Ok (kind, version) ->
  (kind = "wand" \/ kind = "wemod") /\ version <> ""
  /\ parse_version_entry (kind ++ ":" ++ version) = Ok (kind, version).
Proof.
  unfold parse_version_entry at 1.
  destruct (Str.split_colon e) as [[k0 v0]|]; [|discriminate].
  destruct (String.eqb (Str.lower (Str.strip k0)) "wand"
            || String.eqb (Str.lower (Str.strip k0)) "wemod")%bool eqn:Ek;
    [|discriminate].
  cbn [negb].
  destruct (String.eqb (Str.strip v0) "") eqn:Ev; [discriminate|].
  intros E. injection E as <- <-.
  assert (Hk : Str.lower (Str.strip k0) = "wand" \/ Str.lower (Str.strip k0) = "wemod").
  { apply orb_true_iff in Ek. rewrite !String.eqb_eq in Ek. exact Ek. }
  assert (Hv : Str.strip v0 <> "") by (apply String.eqb_neq; exact Ev).
  split; [exact Hk|]. split; [exact Hv|].
  unfold parse_version_entry.
  destruct Hk as [-> | ->];
    (rewrite split_colon_first; [|reflexivity]);
    cbn [Str.strip Str.lower Str.lstrip Str.rev_str Str.lower_char Str.is_space];
    rewrite StripFacts.strip_idem, Ev; reflexivity.
Qed.

Lemma parse_version_entry_roundtrip_witness :
  parse_version_entry " WeMod : 11.6.0 " = Ok ("wemod", "11.6.0")
  /\ (("wemod" = "wand" \/ "wemod" = "wemod") /\ "11.6.0" <> ""
  /\ parse_version_entry ("wemod" ++ ":" ++ "11.6.0") = Ok ("wemod", "11.6.0")).
Proof.
  split; [reflexivity|].
  apply (parse_version_entry_roundtrip " WeMod : 11.6.0 "). reflexivity.
Defined.

(** X2: one malformed entry aborts [main] before anything happens: the
    error of the first malformed entry propagates, no header or record is
    printed, nothing is launched and no teardown runs. *)
Theorem main_aborts_on_bad_entry (cfg : probe_cfg) (pre : list string)
    (e : string) (rest : list string) (envs : list version_env) (msg : string) :
  forallb (fun x => match parse_version_entry x with Ok _ => true | Raise _ => false end)
    pre = true ->
  parse_version_entry e = Raise msg ->
  main_prog cfg (pre ++ e :: rest) envs = Some (Raise msg, []).
Proof.
  intros Hpre He. unfold main_prog.
  assert (H : parse_all (pre ++ e :: rest) = Raise msg).
  { induction pre as [|x pre IH]; simpl.
    - rewrite He. reflexivity.
    - simpl in Hpre. apply andb_true_iff in Hpre as [Hx Hpre].
      destruct (parse_version_entry x); [|discriminate].
      rewrite (IH Hpre). reflexivity. }
  rewrite H. reflexivity.
Qed.

Lemma main_aborts_on_bad_entry_witness :
  main_prog cfg_default ["wand:12.0.3"; "steam:1.0"; "wemod:11.6.0"] []
  = Some (Raise "invalid kind 'steam' in 'steam:1.0', expected wand or wemod", []).
Proof.
  apply (main_aborts_on_bad_entry cfg_default ["wand:12.0.3"] "steam:1.0"
           ["wemod:11.6.0"]); reflexivity.
Defined.

(* ------------------------------------------------------------------ *)
(** ** The CSV record *)

Fixpoint count_char (a : ascii) (s : string) : nat :=
  match s with
  | EmptyString => 0
  | String c r => (if Ascii.eqb c a then 1 else 0) + count_char a r
  end%nat.

Lemma count_char_app (a : ascii) (x y : string) :
  count_char a (x ++ y) = (count_char a x + count_char a y)%nat.
Proof. induction x as [|c x IH]; simpl; [reflexivity|]. rewrite IH. lia. Qed.

Lemma count_comma_replaced (s : string) :
  count_char "," (Str.replace_char "," ";" s) = 0%nat.
Proof.
  induction s as [|c s IH]; [reflexivity|].
  simpl. rewrite IH.
  destruct (Ascii.eqb c ",") eqn:E; [reflexivity|].
  rewrite E. reflexivity.
Qed.

(** X3: a record line has exactly three separating commas besides those
    of the kind, version and status: the summary (a verdict detail or an
    exception text) never adds one, its commas become ';'.  A version
    with a comma, which [parse_version_entry] accepts, does add fields. *)
Theorem csv_line_commas (kind version status summary : string) :
  count_char "," (csv_line kind version status summary)
  = (count_char "," kind + count_char "," version + count_char "," status + 3)%nat.
Proof.
  unfold csv_line. rewrite !count_char_app, count_comma_replaced. simpl. lia.
Qed.

Example csv_line_version_with_comma :
  parse_version_entry "wand:12,0" = Ok ("wand", "12,0")
  /\ count_char "," (csv_line "wand" "12,0" "ERROR" "a, b, c") = 4%nat.
Proof. split; reflexivity. Qed.

(* ------------------------------------------------------------------ *)
(** ** [url_for], [cached_nupkg_path] and [download_if_needed] *)


Definition url_base : string :=
  "https://storage-cdn.wemod.com/app/releases/stable/".

(** Lines 57-61 *)
Definition url_for (kind version : string) : string :=
  if String.eqb kind "wand"
  then (url_base ++ "Wand-" ++ version ++ "-full.nupkg")%string
  else (url_base ++ "WeMod-" ++ version ++ "-full.nupkg")%string.

(** Line 65 *)
Definition cached_nupkg_name (kind version : string) : string :=
  ((if String.eqb kind "wand" then "Wand" else "WeMod")
   ++ "-" ++ version ++ "-full.nupkg")%string.





(* ------------------------------------------------------------------ *)
(** ** [install_nupkg] *)

(** A path below a directory, as its segments; a directory tree is the
    list of the paths of its files (directories exist through the files
    they hold). *)
Definition zpath := list string.

Fixpoint strip_prefix (d p : zpath) : option zpath :=
  match d, p with
  | [], _ => Some p
  | x :: d', y :: p' => if String.eqb x y then strip_prefix d' p' else None
  | _ :: _, [] => None
  end.

(** The names of the entries of directory [d] ([d.iterdir()]) *)
Definition children (d : zpath) (fs : list zpath) : list string :=
  nodup string_dec
    (flat_map (fun p => match strip_prefix d p with
                        | Some (n :: _) => [n]
                        | _ => []
                        end) fs).

(** [(d / n).is_dir()] *)
Definition is_dir_in (d : zpath) (n : string) (fs : list zpath) : bool :=
  existsb (fun p => match strip_prefix (d ++ [n]) p with
                    | Some (_ :: _) => true
                    | _ => false
                    end) fs.

(** The files below [d], relative to [d] *)
Definition files_under (d : zpath) (fs : list zpath) : list zpath :=
  flat_map (fun p => match strip_prefix d p with
                     | Some r => [r]
                     | None => []
                     end) fs.

(** Lines 108-112 for one [item] of [net_root]: [shutil.copytree] of a
    directory, [shutil.copy2] of a file, into the install directory *)
Definition copy_item (root : zpath) (fs : list zpath) (name : string) : list zpath :=
  if is_dir_in root name fs then map (cons name) (files_under (root ++ [name]) fs)
  else [[name]].

Fixpoint insert_sorted (x : string) (l : list string) : list string :=
  match l with
  | [] => [x]
  | y :: l' => if String.leb x y then x :: l else y :: insert_sorted x l'
  end.

(** [sorted] of paths of one directory: by name *)
Fixpoint sort_names (l : list string) : list string :=
  match l with
  | [] => []
  | x :: l' => insert_sorted x (sort_names l')
  end.

(** Line 99: [sorted((tmp / "lib").glob("net*"))] *)
Definition net_roots (fs : list zpath) : list string :=
  sort_names (filter (String.prefix "net") (children ["lib"] fs)).

Record install_env := mkInstallEnv {
  archive : result (list zpath);        (* the files [zf.extractall(tmp)] writes,
                                           or the exception of [ZipFile] *)
  tmp_dir : string;                     (* [td] *)
  install_before : option (list zpath)  (* [install_dir], [None] if absent *)
}.

(** Lines 92-112: the outcome and the install directory afterwards *)
Definition install_nupkg (env : install_env) : result unit * option (list zpath) :=
  match archive env with
  | Raise msg => (Raise msg, install_before env)
  | Ok fs =>
      match net_roots fs with
      | [] => (Raise "no lib/net* payload in nupkg", install_before env)
      | n :: _ =>
          if is_dir_in ["lib"] n fs then
            (Ok tt, Some (flat_map (copy_item ["lib"; n] fs) (children ["lib"; n] fs)))
          else
            (Raise ("[Errno 20] Not a directory: '" ++ tmp_dir env ++ "/lib/"
                    ++ n ++ "'")%string, Some [])
      end
  end.

(* ------------------------------------------------------------------ *)
(** ** [kill_wemod_processes] *)

(** [int(name)] of a name of ASCII digits *)
Fixpoint dec_value (s : string) (acc : Z) : Z :=
  match s with
  | EmptyString => acc
  | String c r => dec_value r (10 * acc + (Z.of_nat (nat_of_ascii c) - 48))
  end.

Definition pid_of (name : string) : Z := dec_value name 0.

(** Lines 116-131 for one entry: the pids it sends signal 9 to *)
Definition kill_entry (e : proc_entry) : list Z :=
  if negb (pe_is_dir e) || negb (Str.isdigit (pe_name e)) then []
  else match pe_cmdline e with
  | None => []
  | Some raw =>
      if String.eqb raw "" then []
      else
        let text := cmdline_text raw in
        if Str.contains "wand.exe" text || Str.contains "wemod.exe" text
        then [pid_of (pe_name e)]
        else []
  end.

(** Lines 115-131: the [os.kill] calls, in /proc order *)
Definition kill_wemod_processes (proc : list proc_entry) : list Z :=
  flat_map kill_entry proc.

(* ------------------------------------------------------------------ *)
(** ** Facts on the download *)

(** X4: the file name of the release URL is the name of the cache file:
    [url_for] is the release base followed by [cached_nupkg_name]. *)
Theorem url_for_cached_name (kind version : string) :
  url_for kind version = (url_base ++ cached_nupkg_name kind version)%string.
Proof.
  unfold url_for, cached_nupkg_name.
  destruct (String.eqb kind "wand"); reflexivity.
Qed.







(* ------------------------------------------------------------------ *)
(** ** Facts on the install *)

Lemma strip_prefix_spec (d p r : zpath) : strip_prefix d p = Some r <-> p = d ++ r.
Proof.
  revert p r. induction d as [|x d IH]; intros [|y p] r; simpl.
  - split; [intros [= ->] | intros ->]; reflexivity.
  - split; [intros [= ->] | intros ->]; reflexivity.
  - split; discriminate.
  - destruct (String.eqb_spec x y) as [->|Hne].
    + rewrite IH. split; [intros ->; reflexivity | intros [= ->]; reflexivity].
    + split; [discriminate | intros [= E _]; congruence].
Qed.

Lemma strip_prefix_app (d r : zpath) : strip_prefix d (d ++ r) = Some r.
Proof. apply strip_prefix_spec. reflexivity. Qed.

Lemma In_children (d : zpath) (fs : list zpath) (n : string) :
  In n (children d fs) <-> exists r, In (d ++ n :: r) fs.
Proof.
  unfold children. rewrite nodup_In, in_flat_map. split.
  - intros [p [Hp Hn]].
    destruct (strip_prefix d p) as [[|m r]|] eqn:E; simpl in Hn; try contradiction.
    destruct Hn as [<-|[]]. apply strip_prefix_spec in E. subst p.
    exists r. exact Hp.
  - intros [r Hr]. exists (d ++ n :: r). split; [exact Hr|].
    rewrite strip_prefix_app. left. reflexivity.
Qed.

Lemma is_dir_in_spec (d : zpath) (n : string) (fs : list zpath) :
  is_dir_in d n fs = true <-> exists m r, In (d ++ n :: m :: r) fs.
Proof.
  unfold is_dir_in. rewrite existsb_exists. split.
  - intros [p [Hp Hm]].
    destruct (strip_prefix (d ++ [n]) p) as [[|m r]|] eqn:E; try discriminate.
    apply strip_prefix_spec in E. subst p. rewrite <- app_assoc in Hp.
    exists m, r. exact Hp.
  - intros [m [r Hr]]. exists (d ++ n :: m :: r). split; [exact Hr|].
    replace (d ++ n :: m :: r) with ((d ++ [n]) ++ m :: r)
      by (rewrite <- app_assoc; reflexivity).
    rewrite strip_prefix_app. reflexivity.
Qed.

Lemma In_files_under (d : zpath) (fs : list zpath) (r : zpath) :
  In r (files_under d fs) <-> In (d ++ r) fs.
Proof.
  unfold files_under. rewrite in_flat_map. split.
  - intros [p [Hp Hr]].
    destruct (strip_prefix d p) as [r'|] eqn:E; simpl in Hr; [|contradiction].
    destruct Hr as [<-|[]]. apply strip_prefix_spec in E. subst p. exact Hp.
  - intros Hr. exists (d ++ r). split; [exact Hr|].
    rewrite strip_prefix_app. left. reflexivity.
Qed.

(** The loop of lines 108-112 reproduces the tree below [root], whatever
    the order of [iterdir()]. *)
Lemma copy_tree_spec (root : zpath) (fs : list zpath) (p : zpath) :
  In p (flat_map (copy_item root fs) (children root fs))
  <-> p <> [] /\ In (root ++ p) fs.
Proof.
  rewrite in_flat_map. split.
  - intros [c [Hc Hp]]. unfold copy_item in Hp.
    destruct (is_dir_in root c fs) eqn:Ed.
    + apply in_map_iff in Hp as [r [<- Hr]].
      apply In_files_under in Hr. rewrite <- app_assoc in Hr.
      split; [discriminate | exact Hr].
    + destruct Hp as [<-|[]]. split; [discriminate|].
      apply In_children in Hc as [[|m r] Hr]; [exact Hr|].
      assert (Hd : is_dir_in root c fs = true)
        by (apply is_dir_in_spec; exists m, r; exact Hr).
      congruence.
  - intros [Hne Hp]. destruct p as [|c r]; [contradiction|].
    exists c. split; [apply In_children; exists r; exact Hp|].
    unfold copy_item. destruct (is_dir_in root c fs) eqn:Ed.
    + apply in_map. apply In_files_under. rewrite <- app_assoc. exact Hp.
    + destruct r as [|m r]; [left; reflexivity|].
      assert (Hd : is_dir_in root c fs = true)
        by (apply is_dir_in_spec; exists m, r; exact Hp).
      congruence.
Qed.

(** [String.leb] is a total preorder *)
Lemma str_compare_refl (s : string) : String.compare s s = Eq.
Proof.
  induction s as [|a s IH]; [reflexivity|].
  simpl. unfold Ascii.compare. rewrite N.compare_refl. exact IH.
Qed.

Lemma str_leb_refl (s : string) : String.leb s s = true.
Proof. unfold String.leb. rewrite str_compare_refl. reflexivity. Qed.

Lemma str_compare_le_trans (x y z : string) :
  String.compare x y <> Gt -> String.compare y z <> Gt ->
  String.compare x z <> Gt.
Proof.
  revert y z. induction x as [|a x IH]; intros [|b y] [|c z]; simpl;
    try congruence.
  unfold Ascii.compare.
  destruct (N.compare_spec (N_of_ascii a) (N_of_ascii b)) as [E1|L1|G1];
  destruct (N.compare_spec (N_of_ascii b) (N_of_ascii c)) as [E2|L2|G2];
  try congruence.
  - rewrite E1, E2, N.compare_refl. apply IH.
  - replace (N.compare (N_of_ascii a) (N_of_ascii c)) with Lt
      by (symmetry; apply N.compare_lt_iff; lia). congruence.
  - replace (N.compare (N_of_ascii a) (N_of_ascii c)) with Lt
      by (symmetry; apply N.compare_lt_iff; lia). congruence.
  - replace (N.compare (N_of_ascii a) (N_of_ascii c)) with Lt
      by (symmetry; apply N.compare_lt_iff; lia). congruence.
Qed.

Lemma str_leb_trans (x y z : string) :
  String.leb x y = true -> String.leb y z = true -> String.leb x z = true.
Proof.
  unfold String.leb.
  destruct (String.compare x y) eqn:E1; try discriminate;
  destruct (String.compare y z) eqn:E2; try discriminate;
  destruct (String.compare x z) eqn:E3; try reflexivity;
  exfalso; apply (str_compare_le_trans x y z); congruence.
Qed.

Lemma str_leb_flip (x y : string) : String.leb x y = false -> String.leb y x = true.
Proof. intros H. destruct (String.leb_total x y); congruence. Qed.

Lemma In_insert_sorted (x m : string) (l : list string) :
  In m (insert_sorted x l) <-> m = x \/ In m l.
Proof.
  induction l as [|y l IH]; simpl; [intuition congruence|].
  destruct (String.leb x y); simpl; [|rewrite IH]; intuition congruence.
Qed.

Lemma In_sort_names (m : string) (l : list string) :
  In m (sort_names l) <-> In m l.
Proof.
  induction l as [|x l IH]; simpl; [tauto|].
  rewrite In_insert_sorted, IH. intuition congruence.
Qed.

Definition head_le (l : list string) : Prop :=
  match l with
  | [] => True
  | h :: t => forall m, In m t -> String.leb h m = true
  end.

Lemma head_le_insert (x : string) (l : list string) :
  head_le l -> head_le (insert_sorted x l).
Proof.
  destruct l as [|y l]; simpl; [intros _ m []|].
  intros H. destruct (String.leb x y) eqn:Exy; simpl.
  - intros m [<-|Hm]; [exact Exy|]. exact (str_leb_trans _ _ _ Exy (H m Hm)).
  - intros m Hm. apply In_insert_sorted in Hm as [->|Hm].
    + apply str_leb_flip. exact Exy.
    + exact (H m Hm).
Qed.

Lemma head_le_sort (l : list string) : head_le (sort_names l).
Proof.
  induction l as [|x l IH]; [exact I|]. apply head_le_insert. exact IH.
Qed.

Lemma sort_names_head (l : list string) (h : string) (t : list string) :
  sort_names l = h :: t -> forall m, In m l -> String.leb h m = true.
Proof.
  intros E m Hm. apply In_sort_names in Hm. rewrite E in Hm.
  pose proof (head_le_sort l) as Hh. rewrite E in Hh.
  destruct Hm as [<-|Hm]; [apply str_leb_refl | exact (Hh m Hm)].
Qed.


(** X7: the payload directory is the first [lib/net*] entry in name
    order: an entry of [lib] whose name starts with "net" and sorts no
    later than any other such entry (so "net45" is taken before "net8.0"). *)
Theorem net_root_is_least (fs : list zpath) (n : string) (rest : list string) :
  net_roots fs = n :: rest ->
  In n (children ["lib"] fs) /\ String.prefix "net" n = true
  /\ forall m, In m (children ["lib"] fs) -> String.prefix "net" m = true ->
     String.leb n m = true.
Proof.
  unfold net_roots. intros E.
  assert (Hn : In n (filter (String.prefix "net") (children ["lib"] fs))).
  { apply In_sort_names. rewrite E. left. reflexivity. }
  apply filter_In in Hn as [Hc Hp].
  split; [exact Hc|]. split; [exact Hp|].
  intros m Hm Hpm. apply (sort_names_head _ _ _ E). apply filter_In. auto.
Qed.

Definition nupkg_two_frameworks : list zpath :=
  [["lib"; "net8.0"; "WeMod.exe"]; ["lib"; "net45"; "WeMod.exe"];
   ["lib"; "net45"; "resources"; "app.asar"]; ["WeMod.nuspec"]].

Lemma net_root_is_least_witness :
  net_roots nupkg_two_frameworks = ["net45"; "net8.0"]
  /\ (In "net45" (children ["lib"] nupkg_two_frameworks)
      /\ String.prefix "net" "net45" = true
      /\ forall m, In m (children ["lib"] nupkg_two_frameworks) ->
         String.prefix "net" m = true -> String.leb "net45" m = true).
Proof.
  split; [vm_compute; reflexivity|].
  apply (net_root_is_least nupkg_two_frameworks "net45" ["net8.0"]).
  vm_compute. reflexivity.
Defined.




(** X9: when the first [lib/net*] entry is a directory, the install
    succeeds and the install directory then holds exactly the files below
    that entry, at the same relative paths; nothing of its previous
    content is left. *)
Theorem install_copies_payload (env : install_env) (fs : list zpath)
    (n : string) (rest : list string) :
  archive env = Ok fs ->
  net_roots fs = n :: rest ->
  is_dir_in ["lib"] n fs = true ->
  exists inst, install_nupkg env = (Ok tt, Some inst)
    /\ forall p, In p inst <-> p <> [] /\ In (["lib"; n] ++ p) fs.
Proof.
  intros Ha Hr Hd. unfold install_nupkg. rewrite Ha, Hr, Hd.
  eexists. split; [reflexivity|]. intros p. apply copy_tree_spec.
Qed.

Definition install_env_update : install_env :=
  mkInstallEnv (Ok nupkg_two_frameworks) "/tmp/wand-probe-2"
    (Some [["WeMod.exe"]; ["old.dll"]]).

Lemma install_copies_payload_witness :
  exists inst, install_nupkg install_env_update = (Ok tt, Some inst)
    /\ forall p, In p inst <-> p <> [] /\ In (["lib"; "net45"] ++ p) nupkg_two_frameworks.
Proof.
  apply (install_copies_payload install_env_update nupkg_two_frameworks
           "net45" ["net8.0"]); vm_compute; reflexivity.
Defined.






(* ------------------------------------------------------------------ *)
(** ** Facts on the /proc scans *)

Lemma kill_entry_bucket (e : proc_entry) :
  kill_entry e = match bucket e with
                 | Some _ => [pid_of (pe_name e)]
                 | None => []
                 end.
Proof.
  unfold kill_entry, bucket, readable_text, names_target.
  destruct (pe_is_dir e), (Str.isdigit (pe_name e)); simpl; try reflexivity.
  destruct (pe_cmdline e) as [raw|]; [|reflexivity].
  destruct (String.eqb raw ""); [reflexivity|].
  destruct (Str.contains "wand.exe" (cmdline_text raw)
            || Str.contains "wemod.exe" (cmdline_text raw)); reflexivity.
Qed.

(** X12: [kill_wemod_processes] signals exactly the processes that
    [inspect_state] counts, in /proc order, each once; so the number of
    kill calls is the sum of the four counts of a snapshot of the same
    /proc. *)
Theorem kill_targets_match_inspect (es : list proc_entry) :
  kill_wemod_processes es
  = map (fun e => pid_of (pe_name e))
        (filter (fun e => match bucket e with Some _ => true | None => false end) es)
  /\ Z.of_nat (List.length (kill_wemod_processes es))
     = main (inspect_state es) + renderer (inspect_state es)
       + gpu (inspect_state es) + utility (inspect_state es).
Proof.
  assert (E : kill_wemod_processes es
              = map (fun e => pid_of (pe_name e))
                  (filter (fun e => match bucket e with Some _ => true | None => false end) es)).
  { unfold kill_wemod_processes. induction es as [|e es IH]; [reflexivity|].
    simpl. rewrite kill_entry_bucket, IH. destruct (bucket e); reflexivity. }
  split; [exact E|]. rewrite E, length_map, inspect_state_total. reflexivity.
Qed.

Lemma filter_permutation {A : Type} (f : A -> bool) (l l' : list A) :
  Permutation l l' -> Permutation (filter f l) (filter f l').
Proof.
  induction 1 as [| x l l' _ IH | x y l | l l' l'' _ IH1 _ IH2]; simpl.
  - constructor.
  - destruct (f x); [constructor|]; exact IH.
  - destruct (f x), (f y); try constructor; reflexivity.
  - exact (Permutation_trans IH1 IH2).
Qed.

(** X13: the snapshot does not depend on the order in which
    [Path("/proc").iterdir()] lists the processes. *)
Theorem inspect_state_order_independent (es es' : list proc_entry) :
  Permutation es es' -> inspect_state es = inspect_state es'.
Proof.
  intros Hp. unfold inspect_state. rewrite !fold_inspect. unfold count_role.
  rewrite !(Permutation_length (filter_permutation _ _ _ Hp)). reflexivity.
Qed.

Definition proc_sample : list proc_entry :=
  [mkEntry true "12" (Some "C:\WeMod.exe --type=renderer");
   mkEntry true "14" (Some "wine Wand.exe");
   mkEntry true "15" (Some "Wand.exe --type=gpu-process")].

Lemma inspect_state_order_independent_witness :
  Permutation proc_sample (rev proc_sample)
  /\ inspect_state proc_sample = inspect_state (rev proc_sample).
Proof.
  assert (H : Permutation proc_sample (rev proc_sample)) by apply Permutation_rev.
  split; [exact H|]. exact (inspect_state_order_independent _ _ H).
Defined.

(* ------------------------------------------------------------------ *)
(** ** Where a verdict comes from *)









(* ------------------------------------------------------------------ *)
(** ** The trace of [main] *)

(** The events of one version after its teardown call: its record,
    preceded by a launch, the kill of the child and a teardown when the
    probe got to launch Wine. *)
Definition version_block (b : list event) : Prop :=
  (exists l, b = [Print l]) \/ (exists l, b = [Launch; KillChild; Teardown; Print l]).

Lemma run_one_block (cfg : probe_cfg) (kind version : string)
    (ve : version_env) (evs : list event) :
  run_one cfg kind version ve = Some evs -> version_block evs.
Proof.
  unfold run_one, version_block.
  destruct (download ve) as [[]|m]; [|intros [= <-]; left; eexists; reflexivity].
  destruct (install ve) as [[]|m]; [|intros [= <-]; left; eexists; reflexivity].
  unfold quick_probe.
  destruct (exe_exists (probe ve)); cbn [negb].
  - destruct (popen (probe ve)) as [[]|m].
    + destruct (observe_loop _ _ _) as [[s d]|]; [|discriminate].
      intros [= <-]. right. eexists. reflexivity.
    + intros [= <-]. left. eexists. reflexivity.
  - intros [= <-]. left. eexists. reflexivity.
Qed.

Lemma main_loop_blocks (cfg : probe_cfg) (reqs : list (string * string)) :
  forall envs evs,
  main_loop cfg reqs envs = Some evs ->
  exists blocks, evs = List.concat (map (cons Teardown) blocks)
    /\ List.length blocks = List.length reqs /\ Forall version_block blocks.
Proof.
  induction reqs as [|[kind version] reqs IH]; intros envs evs Hml.
  - destruct envs; injection Hml as <-; exists []; repeat constructor.
  - destruct envs as [|ve envs]; [discriminate|].
    cbn [main_loop] in Hml.
    destruct (run_one cfg kind version ve) as [evs1|] eqn:E1; [|discriminate].
    destruct (main_loop cfg reqs envs) as [rest|] eqn:E2; [|discriminate].
    injection Hml as <-.
    destruct (IH envs rest E2) as [blocks [-> [Hl Hb]]].
    exists (evs1 :: blocks). split; [reflexivity|].
    split; [simpl; rewrite Hl; reflexivity|].
    constructor; [exact (run_one_block _ _ _ _ _ E1) | exact Hb].
Qed.

Lemma parse_all_length (entries : list string) (reqs : list (string * string)) :
  parse_all entries = Ok reqs -> List.length reqs = List.length entries.
Proof.
  revert reqs. induction entries as [|e es IH]; intros reqs H.
  - injection H as <-. reflexivity.
  - simpl in H. destruct (parse_version_entry e) as [kv|]; [|discriminate].
    destruct (parse_all es) as [kvs|]; [|discriminate].
    injection H as <-. simpl. rewrite (IH kvs eq_refl). reflexivity.
Qed.

(** X16: a completed run of [main] prints the header, then for each entry,
    in order, a teardown call followed by that version's events: its
    record alone, or a launch, the kill of the child, a teardown and then
    the record; a final teardown call ends the run.  So Wine is launched
    at most once per version, and each launch is followed by the kill of
    the child and a teardown before anything else happens. *)
Theorem main_trace_shape (cfg : probe_cfg) (entries : list string)
    (envs : list version_env) (evs : list event) :
  main_prog cfg entries envs = Some (Ok tt, evs) ->
  exists blocks,
    evs = Print header :: List.concat (map (cons Teardown) blocks) ++ [Teardown]
    /\ List.length blocks = List.length entries
    /\ Forall version_block blocks.
Proof.
  unfold main_prog.
  destruct (parse_all entries) as [reqs|m] eqn:Ep; [|discriminate].
  destruct (main_loop cfg reqs envs) as [evs0|] eqn:Em; [|discriminate].
  intros [= <-].
  destruct (main_loop_blocks _ _ _ _ Em) as [blocks [-> [Hl Hb]]].
  exists blocks. split; [reflexivity|]. split; [|exact Hb].
  rewrite Hl. exact (parse_all_length _ _ Ep).
Qed.

Definition scenario_D_trace : list event :=
  match main_prog cfg_default scenario_D_entries [env_download_fails; env_times_out] with
  | Some (_, evs) => evs
  | None => []
  end.

Lemma main_trace_shape_witness :
  main_prog cfg_default scenario_D_entries [env_download_fails; env_times_out]
  = Some (Ok tt, scenario_D_trace)
  /\ exists blocks,
    scenario_D_trace = Print header :: List.concat (map (cons Teardown) blocks) ++ [Teardown]
    /\ List.length blocks = List.length scenario_D_entries
    /\ Forall version_block blocks.
Proof.
  assert (H : main_prog cfg_default scenario_D_entries [env_download_fails; env_times_out]
              = Some (Ok tt, scenario_D_trace)) by (vm_compute; reflexivity).
  split; [exact H|].
  exact (main_trace_shape cfg_default scenario_D_entries
           [env_download_fails; env_times_out] scenario_D_trace H).
Defined.

(* ------------------------------------------------------------------ *)
(** ** The timeout in the TIMEOUT detail *)


Example fmt_0f_ties : fmt_0f 2500 = "2" /\ fmt_0f 3500 = "4" /\ fmt_0f (-300) = "-0".
Proof. repeat split; reflexivity. Qed.
